(** * SevaLink: request lifecycle and single-acceptor matching

    A shallow embedding of the Express route handlers of
    [server/routes/requests.js] (first revision in the file, the one that
    has the volunteer, contacts and public listing routes).

    - Documents of the [Request] collection are records; the paths the
      handlers read and write by name ([name], [phone], [location],
      [bloodType], ...) live in a finite map from path name to JSON value,
      because [PUT /:id] selects them by string.
    - The [User] collection is a finite map from id to profile.
    - A handler is a function from the collections and the request
      parameters to the HTTP response and the new [Request] collection.
      An exception caught by the handler's [try]/[catch] is the 500
      response of that handler.
    - Response bodies are JSON trees, as [res.json] sends them.
    - Ids are well-formed [ObjectId] values, written as strings, and
      strings are sequences of UTF-8 bytes.
    - The store sets [updatedAt] when it saves a document that the handler
      has changed. The version key is not part of the model.
    - A handler that awaits between its read and its save can be
      overtaken by another run: [Race] has the volunteer handler in two
      steps. [perform] runs a handler without interruption. *)

From Stdlib Require Import ZArith Ascii String.
From stdpp Require Import gmap strings list fin_maps sorting.

Local Open Scope string_scope.
Local Open Scope Z_scope.
Local Set Warnings "-register-all".

(** ** JSON values *)

Inductive Json : Type :=
| JNull
| JBool (b : bool)
| JNum (n : Z)
| JStr (s : string)
| JDate (t : Z)
| JArr (items : list Json)
| JObj (fields : list (string * Json)).

(** JavaScript truthiness, as used by [a || b] and [if (!a)]. [None] is
    [undefined]. Arrays, objects and dates are always truthy. *)
Definition truthy (v : option Json) : bool :=
  match v with
  | None => false
  | Some JNull => false
  | Some (JBool b) => b
  | Some (JNum n) => negb (n =? 0)
  | Some (JStr s) => negb (String.eqb s "")
  | Some (JDate _) | Some (JArr _) | Some (JObj _) => true
  end.

(** [a || b] on possibly undefined values. *)
Definition js_or (a b : option Json) : option Json :=
  if truthy a then a else b.

(** An object literal. A property whose value is [undefined] is dropped when
    the response is serialised, so it is dropped here. *)
Fixpoint defined_props (props : list (string * option Json))
  : list (string * Json) :=
  match props with
  | [] => []
  | (k, Some v) :: ps => (k, v) :: defined_props ps
  | (_, None) :: ps => defined_props ps
  end.

Definition object (props : list (string * option Json)) : Json :=
  JObj (defined_props props).

(** Property read [o.k]; [None] is [undefined]. Reading a property of a
    value that is not an object gives [undefined] as well. *)
Fixpoint assoc (k : string) (fields : list (string * Json)) : option Json :=
  match fields with
  | [] => None
  | (k', v) :: rest => if String.eqb k k' then Some v else assoc k rest
  end.

Definition get (k : string) (o : Json) : option Json :=
  match o with
  | JObj fields => assoc k fields
  | _ => None
  end.

(** Property write [o.k = v]: replaces the value in place, or adds the
    property at the end. *)
Fixpoint assoc_set (k : string) (v : Json) (fields : list (string * Json))
  : list (string * Json) :=
  match fields with
  | [] => [(k, v)]
  | (k', v') :: rest =>
      if String.eqb k k' then (k, v) :: rest else (k', v') :: assoc_set k v rest
  end.

Definition set (k : string) (v : Json) (o : Json) : Json :=
  match o with
  | JObj fields => JObj (assoc_set k v fields)
  | _ => o
  end.

(** Equality of JSON values is decidable. *)
#[global] Instance Json_eq_dec : EqDecision Json.
Proof.
  refine (fix go (x y : Json) {struct x} : Decision (x = y) :=
    match x, y with
    | JNull, JNull => left eq_refl
    | JBool a, JBool b => cast_if (decide (a = b))
    | JNum a, JNum b => cast_if (decide (a = b))
    | JStr a, JStr b => cast_if (decide (a = b))
    | JDate a, JDate b => cast_if (decide (a = b))
    | JArr l, JArr k => cast_if (@decide (l = k) (@list_eq_dec _ go l k))
    | JObj l, JObj k =>
        cast_if (@decide (l = k)
                   (@list_eq_dec _ (@prod_eq_dec _ _ _ go) l k))
    | _, _ => right _
    end); clear go; congruence.
Defined.

(** Does the string [s] occur as a string value anywhere inside [j]? *)
Fixpoint mentions (s : string) (j : Json) : bool :=
  match j with
  | JStr s' => String.eqb s s'
  | JArr items =>
      (fix any (l : list Json) : bool :=
         match l with [] => false | x :: l' => mentions s x || any l' end) items
  | JObj fields =>
      (fix any (l : list (string * Json)) : bool :=
         match l with [] => false | (_, x) :: l' => mentions s x || any l' end) fields
  | _ => false
  end.

(** ** The collections *)

Definition Id := string.
Definition Time := Z.

Inductive Role := citizen | volunteer_role | admin.

(** A [User] document, as far as the handlers read it. An absent phone
    number is the empty string. *)
Record User := {
  name : string;
  phone : string;
  email : string;
  role : Role
}.

Inductive RequestType := blood | elder_support | complaint.

Inductive Status :=
  pending | accepted | in_progress | resolved | completed | cancelled.

#[global] Instance RequestType_eq_dec : EqDecision RequestType.
Proof. solve_decision. Defined.
#[global] Instance Status_eq_dec : EqDecision Status.
Proof. solve_decision. Defined.
#[global] Instance Role_eq_dec : EqDecision Role.
Proof. solve_decision. Defined.

Definition type_name (t : RequestType) : string :=
  match t with
  | blood => "blood"
  | elder_support => "elder_support"
  | complaint => "complaint"
  end.

Definition status_name (s : Status) : string :=
  match s with
  | pending => "pending"
  | accepted => "accepted"
  | in_progress => "in_progress"
  | resolved => "resolved"
  | completed => "completed"
  | cancelled => "cancelled"
  end.

(** An element of [request.accepters]: [{ user, acceptedAt, status }]. The
    status of an acceptance record is a free string; the only value the
    handlers write is ["accepted"]. The [_id] the store generates for the
    record is left out. *)
Record Accepter := {
  a_user : Id;
  acceptedAt : Time;
  a_status : string
}.

(** A [Request] document. [user] is the owner's id. [paths] holds the
    remaining paths by name. The document's [_id] is its key in the
    collection. *)
Record Request := {
  type : RequestType;
  user : Id;
  status : Status;
  accepters : list Accepter;
  createdAt : Time;
  updatedAt : Time;
  paths : gmap string Json
}.

Definition with_paths (r : Request) (p : gmap string Json) : Request :=
  {| type := type r; user := user r; status := status r;
     accepters := accepters r; createdAt := createdAt r;
     updatedAt := updatedAt r; paths := p |}.

(** What the volunteer handler does to its copy of the document before
    it saves: [request.accepters.push(a); request.status = 'accepted']. *)
Definition with_acceptance (r : Request) (a : Accepter) : Request :=
  {| type := type r; user := user r; status := accepted;
     accepters := accepters r ++ [a]; createdAt := createdAt r;
     updatedAt := updatedAt r; paths := paths r |}.

(** Modelled from the spec: the schema [models/Request.js] and the store
    are not among the sources. The spec's data model has [updatedAt]
    advance on any mutation: a changed document is saved with its
    [updatedAt] set to the time [now] that the store reads. *)
Definition stamped (r : Request) (now : Time) : Request :=
  {| type := type r; user := user r; status := status r;
     accepters := accepters r; createdAt := createdAt r;
     updatedAt := now; paths := paths r |}.

(** Two documents that differ in [updatedAt] at most. *)
Definition same_but_updatedAt (r r' : Request) : Prop :=
  type r = type r' ∧ user r = user r' ∧ status r = status r'
  ∧ accepters r = accepters r' ∧ createdAt r = createdAt r'
  ∧ paths r = paths r'.

Abbreviation Users := (gmap Id User).
Abbreviation Requests := (gmap Id Request).

(** ** Responses *)

Record Response := { code : nat; body : Json }.

Definition json (b : Json) : Response := {| code := 200; body := b |}.
Definition status_json (c : nat) (b : Json) : Response := {| code := c; body := b |}.

(** The [{ success: false, message }] body of the newer routes. *)
Definition failure (c : nat) (msg : string) : Response :=
  status_json c (JObj [("success", JBool false); ("message", JStr msg)]).

(** The [{ message }] body of the older routes. *)
Definition refusal (c : nat) (msg : string) : Response :=
  status_json c (JObj [("message", JStr msg)]).

(** The properties [name], [phone] and [email] of a profile, as the
    handlers copy them into a response and as
    [populate(path, 'name phone email')] selects them. *)
Definition contact_of (u : User) : list (string * option Json) :=
  [("name", Some (JStr (name u)));
   ("phone", Some (JStr (phone u)));
   ("email", Some (JStr (email u)))].

(** The clock of one handler run: [clock n] is the value of the [n]-th
    [new Date()] the handler evaluates. The time the store reads when the
    handler saves is numbered after the handler's own. *)
Definition Clock := nat -> Time.

(** ** POST /:id/volunteer *)

Module Volunteer.

Definition request_not_found : Response :=
  failure 404 "Request not found".
Definition wrong_type : Response :=
  failure 400 "Can only volunteer for blood requests".
Definition self_acceptance : Response :=
  failure 400 "Cannot volunteer for your own request".
Definition volunteer_not_found : Response :=
  failure 404 "Volunteer not found".
Definition already_accepted : Response :=
  failure 400 "This blood request has already been accepted by another donor".
Definition already_volunteered : Response :=
  failure 400 "You have already volunteered for this request".
Definition server_error : Response :=
  failure 500 "Failed to volunteer for request".

(** The handler evaluates [new Date()] three times, [clock 0] to
    [clock 2]; the store's time at [request.save()] is [clock 3]. *)
Definition saved_at (clock : Clock) : Time := clock 3%nat.

(** The record pushed onto [request.accepters]. *)
Definition acceptance (userId : Id) (clock : Clock) : Accepter :=
  {| a_user := userId; acceptedAt := clock 0%nat; a_status := "accepted" |}.

(** The body sent after the save; [request] is the saved document,
    [owner] its populated [user], [volunteer] the caller's profile. *)
Definition accepted_body (id : Id) (request : Request)
    (owner volunteer : User) (clock : Clock) : Json :=
  object
    [("success", Some (JBool true));
     ("message", Some (JStr
        "Thank you for volunteering! You can now see the requester's contact details."));
     ("request", Some (object
        [("_id", Some (JStr id));
         ("bloodType", paths request !! "bloodType");
         ("urgencyLevel", paths request !! "urgencyLevel");
         ("location", paths request !! "location");
         ("status", Some (JStr (status_name (status request))));
         ("createdAt", Some (JDate (createdAt request)));
         ("acceptedAt", Some (JDate (clock 1%nat)));
         ("userRole", Some (JStr "donor"));
         ("requester", Some (object (contact_of owner)));
         ("donor", Some (object
            (contact_of volunteer
             ++ [("acceptedAt", Some (JDate (clock 2%nat)))])))]))].

(** What the handler decides from the document it has read, before any
    write: either the response of a failed check, or the document to
    save with the two profiles the response is built from. *)
Inductive Decision :=
| Reject (r : Response)
| Accept (saved : Request) (owner volunteer : User).

(** Lines 624-683, on the result [found] of
    [Request.findById(id).populate('user', 'name email')]. A populated
    [user] that does not exist is [null], and reading [_id] from it
    throws. *)
Definition decide_volunteer (users : Users) (found : option Request)
    (userId : Id) (clock : Clock) : Decision :=
  match found with
  | None => Reject request_not_found
  | Some request =>
      if negb (bool_decide (type request = blood)) then Reject wrong_type
      else
        match users !! user request with
        | None => Reject server_error
        | Some owner =>
            if bool_decide (user request = userId) then Reject self_acceptance
            else
              match users !! userId with
              | None => Reject volunteer_not_found
              | Some volunteer =>
                  if (0 <? length (accepters request))%nat
                  then Reject already_accepted
                  else if existsb (fun accepter =>
                                     bool_decide (a_user accepter = userId))
                                  (accepters request)
                  then Reject already_volunteered
                  else Accept (with_acceptance request (acceptance userId clock))
                              owner volunteer
              end
        end
  end.

(** The handler, run without interruption: read, check, save, respond. *)
Definition post_volunteer (users : Users) (requests : Requests)
    (id userId : Id) (clock : Clock) : Response * Requests :=
  match decide_volunteer users (requests !! id) userId clock with
  | Reject r => (r, requests)
  | Accept saved owner volunteer =>
      (* [request.save()], then the two [populate] calls, which read
         the same profiles again *)
      (json (accepted_body id saved owner volunteer clock),
       <[id := stamped saved (saved_at clock)]> requests)
  end.

End Volunteer.

(** ** Documents as JSON *)

(** A populated reference: the selected profile fields with the [_id], or
    [null] when the referenced user does not exist. *)
Definition populated (users : Users) (fields : User -> list (string * option Json))
    (ref : Id) : Json :=
  match users !! ref with
  | Some u => object (("_id", Some (JStr ref)) :: fields u)
  | None => JNull
  end.

Definition accepter_json (user_json : Json) (a : Accepter) : Json :=
  JObj [("user", user_json);
        ("acceptedAt", JDate (acceptedAt a));
        ("status", JStr (a_status a))].

(** The JSON of a document, given the JSON of its [user] reference and of
    its [accepters]. *)
Definition document (id : Id) (r : Request) (user_json : Json)
    (accepters_json : list Json) : Json :=
  JObj ([("_id", JStr id);
         ("type", JStr (type_name (type r)));
         ("user", user_json);
         ("status", JStr (status_name (status r)));
         ("accepters", JArr accepters_json);
         ("createdAt", JDate (createdAt r));
         ("updatedAt", JDate (updatedAt r))]
        ++ map_to_list (paths r)).

(** The document with [user] populated and [accepters.user] left as ids,
    as the create, update and single-read routes send it. The single read
    selects [address] as well, which the profiles here do not carry, and
    the routes populate [assignedVolunteer], [volunteerApplications] and
    [updates], which stay among the paths as stored. *)
Definition document_with_user (users : Users) (id : Id) (r : Request) : Json :=
  document id r (populated users contact_of (user r))
    (map (fun a => accepter_json (JStr (a_user a)) a) (accepters r)).

(** ** POST / *)

Module Create.

Definition validation_failed (errors : list Json) : Response :=
  status_json 400
    (JObj [("message", JStr "Validation failed"); ("errors", JArr errors)]).
Definition phone_required : Response :=
  status_json 400
    (JObj [("message", JStr
              "Phone number is required. Please update your profile with a phone number.");
           ("error", JStr "PHONE_REQUIRED")]).
Definition server_error : Response :=
  status_json 500
    (JObj [("message", JStr "Server error creating request");
           ("error", JStr "Internal server error")]).

(** [req.body.type] as a request type. *)
Definition body_type (body : gmap string Json) : option RequestType :=
  match body !! "type" with
  | Some (JStr "blood") => Some blood
  | Some (JStr "elder_support") => Some elder_support
  | Some (JStr "complaint") => Some complaint
  | _ => None
  end.

(** [req.body.type.replace('_', ' ')] *)
Definition type_label (t : RequestType) : string :=
  match t with
  | blood => "blood"
  | elder_support => "elder support"
  | complaint => "complaint"
  end.

(** [requestData.k = v]; a property set to [undefined] is no path of the
    new document. *)
Definition put (k : string) (v : option Json) (data : gmap string Json)
  : gmap string Json :=
  match v with
  | Some x => <[k := x]> data
  | None => data
  end.

(** Lines 188-209. [new Date(req.body.dueDate)] is kept as the value
    that was sent. *)
Definition requestData (t : RequestType) (body : gmap string Json)
    (phoneNumber : Json) : gmap string Json :=
  let base :=
    put "location" (body !! "location")
      (put "phone" (Some phoneNumber)
         (put "name" (body !! "name") ∅)) in
  match t with
  | blood =>
      put "priority" (body !! "urgencyLevel")
        (put "urgencyLevel" (body !! "urgencyLevel")
           (put "bloodType" (body !! "bloodType") base))
  | elder_support =>
      put "dueDate" (body !! "dueDate")
        (put "serviceType" (body !! "serviceType") base)
  | complaint =>
      put "images" (js_or (body !! "images") (Some (JArr [])))
        (put "category" (body !! "category")
           (put "description" (body !! "description")
              (put "title" (body !! "title") base)))
  end.

(** Modelled from the spec: the schema [models/Request.js] is not among
    the sources. [new Request(data)] gives the document the defaults the
    spec states for a created request: [status = pending], no accepters,
    and both timestamps set when it is first saved. *)
Definition new_Request (t : RequestType) (owner : Id)
    (data : gmap string Json) (now : Time) : Request :=
  {| type := t; user := owner; status := pending; accepters := [];
     createdAt := now; updatedAt := now; paths := data |}.

(** [req.body.phone || user.phone], where [user] is the caller's
    profile or [null]. [user.phone] is evaluated only when the body has
    no phone, and throws on [null]: that is [None] here. *)
Definition phoneNumber (users : Users) (userId : Id)
    (body : gmap string Json) : option Json :=
  if truthy (body !! "phone") then body !! "phone"
  else (fun caller => JStr (phone caller)) <$> users !! userId.

(** The handler. [errors] is [validationResult(req).array()], [newId] the
    [_id] the store gives the new document. A [type] outside the three
    request types passes no validation and is refused by the schema on
    save. The 500 body is the one sent outside development mode. *)
Definition post_request (users : Users) (requests : Requests)
    (userId : Id) (errors : list Json) (body : gmap string Json)
    (newId : Id) (clock : Clock) : Response * Requests :=
  match errors with
  | _ :: _ => (validation_failed errors, requests)
  | [] =>
      match phoneNumber users userId body with
      | None => (server_error, requests)
      | Some number =>
          if negb (truthy (Some number)) then (phone_required, requests)
          else
            match body_type body with
            | Some t =>
                let request :=
                  new_Request t userId (requestData t body number)
                              (clock 0%nat) in
                (status_json 201
                   (JObj [("message", JStr (type_label t +:+
                                            " request created successfully"));
                          ("request", document_with_user users newId request)]),
                 <[newId := request]> requests)
            | None => (server_error, requests)
            end
      end
  end.

End Create.

(** ** PUT /:id *)

Module Update.

Definition request_not_found : Response := refusal 404 "Request not found".
Definition access_denied : Response :=
  refusal 403 "Access denied. You can only update your own requests.".
Definition not_pending : Response :=
  refusal 400 "Cannot update request that is no longer pending".

Definition allowedUpdates : list string := ["name"; "location"; "contactInfo"].

Definition typeSpecificUpdates (t : RequestType) : list string :=
  match t with
  | blood => ["bloodType"; "urgencyLevel"]
  | elder_support => ["serviceType"; "dueDate"]
  | complaint => ["title"; "description"; "category"]
  end.

(** [fields.forEach(field => { if (req.body[field] !== undefined)
    updates[field] = req.body[field] })] *)
Definition collect (fields : list string) (body updates : gmap string Json)
  : gmap string Json :=
  foldl (fun acc field =>
           match body !! field with
           | Some v => <[field := v]> acc
           | None => acc
           end) updates fields.

Definition updates_of (t : RequestType) (body : gmap string Json)
  : gmap string Json :=
  collect (typeSpecificUpdates t) body (collect allowedUpdates body ∅).

(** Modelled from the spec: the schema is not among the sources. The
    paths of the two lists other than [contactInfo] are written by the
    create route as well and are paths of the schema. [contactInfo] is
    written by no other route; whether the schema declares it is the
    parameter [declared]. A property assigned to a document under a name
    that the schema does not declare is neither saved nor sent. *)
Definition assignable (declared : bool) (updates : gmap string Json)
  : gmap string Json :=
  if declared then updates else delete "contactInfo" updates.

(** [Object.assign(request, updates)] *)
Definition assign (declared : bool) (request : Request)
    (updates : gmap string Json) : Request :=
  with_paths request (assignable declared updates ∪ paths request).

(** The handler evaluates no [new Date()]; the store's time at
    [request.save()] is [clock 0]. *)
Definition saved_at (clock : Clock) : Time := clock 0%nat.

(** [request.save()], on the document as read and as assigned.
    Modelled from the spec: [updatedAt] advances on a mutation; when the
    assignment has changed no path, the document stays as it was read. *)
Definition save (read assigned : Request) (now : Time) : Request :=
  if decide (paths assigned = paths read) then assigned
  else stamped assigned now.

Definition put_request (users : Users) (requests : Requests)
    (id userId : Id) (body : gmap string Json) (clock : Clock)
    (declared : bool) : Response * Requests :=
  match requests !! id with
  | None => (request_not_found, requests)
  | Some request =>
      if negb (bool_decide (user request = userId)) then (access_denied, requests)
      else if negb (bool_decide (status request = pending))
      then (not_pending, requests)
      else
        let assigned := assign declared request (updates_of (type request) body) in
        let request := save request assigned (saved_at clock) in
        (json (JObj [("message", JStr "Request updated successfully");
                     ("request", document_with_user users id request)]),
         <[id := request]> requests)
  end.

End Update.

(** ** DELETE /:id *)

Module Delete.

Definition request_not_found : Response := refusal 404 "Request not found".
Definition access_denied : Response :=
  refusal 403 "Access denied. You can only delete your own requests.".
Definition deleted : Response :=
  json (JObj [("message", JStr "Request deleted successfully")]).

Definition delete_request (requests : Requests) (id userId : Id)
  : Response * Requests :=
  match requests !! id with
  | None => (request_not_found, requests)
  | Some request =>
      if negb (bool_decide (user request = userId)) then (access_denied, requests)
      else (deleted, delete id requests)
  end.

End Delete.

(** ** GET /:id *)

Module Get.

Definition request_not_found : Response := refusal 404 "Request not found".
Definition access_denied : Response :=
  refusal 403 "Access denied. You can only view your own requests.".
Definition server_error : Response :=
  status_json 500
    (JObj [("message", JStr "Server error retrieving request");
           ("error", JStr "Internal server error")]).
Definition retrieved (request : Json) : Response :=
  json (JObj [("message", JStr "Request retrieved successfully");
              ("request", request)]).

(** [user.role === 'citizen' && request.user._id.toString() !== userId]:
    [user] is the caller's profile ([caller] below), [request.user] the
    populated owner.
    Either may be [null]; the second is read only for a citizen. [None]
    is the exception of reading a property of [null]. *)
Definition denied (users : Users) (request : Request) (userId : Id)
  : option bool :=
  match users !! userId with
  | None => None
  | Some caller =>
      if bool_decide (role caller = citizen)
      then match users !! user request with
           | None => None
           | Some _ => Some (negb (bool_decide (user request = userId)))
           end
      else Some false
  end.

Definition get_request (users : Users) (requests : Requests)
    (id userId : Id) : Response :=
  match requests !! id with
  | None => request_not_found
  | Some request =>
      match denied users request userId with
      | None => server_error
      | Some true => access_denied
      | Some false => retrieved (document_with_user users id request)
      end
  end.

End Get.

(** ** The store's queries *)

Module Store.

Inductive Sort :=
  createdAt_asc | createdAt_desc | updatedAt_desc | acceptedAt_desc.

(** The key of a descending sort on [accepters.acceptedAt]: the latest
    acceptance of the request. *)
Definition latest_acceptance (r : Request) : Time :=
  foldr Z.max 0 (map acceptedAt (accepters r)).

Definition before (s : Sort) (a b : Id * Request) : Prop :=
  match s with
  | createdAt_asc => createdAt a.2 ≤ createdAt b.2
  | createdAt_desc => createdAt b.2 ≤ createdAt a.2
  | updatedAt_desc => updatedAt b.2 ≤ updatedAt a.2
  | acceptedAt_desc => latest_acceptance b.2 ≤ latest_acceptance a.2
  end.

#[global] Instance before_dec s a b : Decision (before s a b).
Proof. destruct s; simpl; apply _. Defined.

(** [.skip(skip).limit(limit)]: a limit of 0 is no limit, a negative
    limit is its absolute value. *)
Definition window {A} (skip limit : Z) (l : list A) : list A :=
  let rest := drop (Z.to_nat skip) l in
  if limit =? 0 then rest else take (Z.to_nat (Z.abs limit)) rest.

(** Modelled from the spec: the Request Store's
    [find(query, sort, skip, limit)] is an external collaborator. The
    query is the predicate [matches]; the documents that satisfy it are
    sorted and the window cut out. A negative skip is refused by the
    store, which the handler sees as an exception ([None]). *)
Definition find (matches : Id * Request -> bool) (s : Sort)
    (skip limit : Z) (requests : Requests) : option (list (Id * Request)) :=
  if skip <? 0 then None
  else Some (window skip limit
               (merge_sort (before s)
                  (List.filter matches (map_to_list requests)))).

Definition countDocuments (matches : Id * Request -> bool)
    (requests : Requests) : Z :=
  Z.of_nat (length (List.filter matches (map_to_list requests))).

End Store.

(** ** Strings of the query *)

(** [s.split(',')] *)
Fixpoint split_commas (s : string) : list string :=
  match s with
  | EmptyString => [""]
  | String c rest =>
      if Ascii.eqb c ","%char then "" :: split_commas rest
      else match split_commas rest with
           | [] => [String c ""]
           | w :: ws => String c w :: ws
           end
  end.

(** [String.prototype.trim] removes the white space and the line
    terminators of ECMAScript. Those of one byte: tab, line feed,
    vertical tab, form feed, carriage return and space. *)
Definition is_space (c : Ascii.ascii) : bool :=
  let n := Ascii.nat_of_ascii c in
  ((n =? 32) || ((9 <=? n) && (n <=? 13)))%nat.

(** Those of three bytes in UTF-8: U+1680 (E1 9A 80), U+2000 to U+200A
    (E2 80 80 to E2 80 8A), U+2028, U+2029 and U+202F (E2 80 A8, A9, AF),
    U+205F (E2 81 9F), U+3000 (E3 80 80) and U+FEFF (EF BB BF). *)
Definition wide_space (b1 b2 b3 : nat) : bool :=
  (((b1 =? 225) && (b2 =? 154) && (b3 =? 128))
   || ((b1 =? 226) && (b2 =? 128)
       && (((128 <=? b3) && (b3 <=? 138))
           || (b3 =? 168) || (b3 =? 169) || (b3 =? 175)))
   || ((b1 =? 226) && (b2 =? 129) && (b3 =? 159))
   || ((b1 =? 227) && (b2 =? 128) && (b3 =? 128))
   || ((b1 =? 239) && (b2 =? 187) && (b3 =? 191)))%nat.

(** The rest of [s] after one leading character that [trim] removes, if
    [s] starts with one. The one of two bytes is U+00A0 (C2 A0). *)
Definition after_space (s : string) : option string :=
  match s with
  | String c rest =>
      if is_space c then Some rest
      else
        match rest with
        | String d rest2 =>
            if ((Ascii.nat_of_ascii c =? 194)
                && (Ascii.nat_of_ascii d =? 160))%nat
            then Some rest2
            else
              match rest2 with
              | String e rest3 =>
                  if wide_space (Ascii.nat_of_ascii c) (Ascii.nat_of_ascii d)
                                (Ascii.nat_of_ascii e)
                  then Some rest3 else None
              | EmptyString => None
              end
        | EmptyString => None
        end
  | EmptyString => None
  end.

Fixpoint drop_spaces (fuel : nat) (s : string) : string :=
  match fuel with
  | O => s
  | S fuel' =>
      match after_space s with
      | Some rest => drop_spaces fuel' rest
      | None => s
      end
  end.

(** Every removal takes at least one byte, so the length of [s] is
    enough fuel. *)
Definition trim_start (s : string) : string :=
  drop_spaces (String.length s) s.

(** The longest suffix made of such characters is cut off. *)
Fixpoint trim_end (s : string) : string :=
  match s with
  | EmptyString => ""
  | String c rest =>
      if String.eqb (trim_start s) "" then "" else String c (trim_end rest)
  end.

Definition trim (s : string) : string := trim_end (trim_start s).

(** The sentinel that replaces a hidden contact field. *)
Definition Hidden : Json := JStr "Hidden".

(** [accepters.some(accepter => accepter.user._id.toString() === userId)]
    over populated accepters: an accepter whose user does not exist is
    populated as [null], and reading [_id] from it throws ([None]). *)
Fixpoint some_accepter (users : Users) (userId : Id) (l : list Accepter)
  : option bool :=
  match l with
  | [] => Some false
  | accepter :: rest =>
      match users !! a_user accepter with
      | None => None
      | Some _ =>
          if bool_decide (a_user accepter = userId) then Some true
          else some_accepter users userId rest
      end
  end.

(** ** GET / *)

Module Listing.

(** [req.query]: [type], [status] and [sortBy] as sent (or absent),
    [page] and [limit] after [parseInt], with their defaults 1 and 10. *)
Record Query := {
  q_type : option string;
  q_status : option string;
  q_sortBy : option string;
  q_page : Z;
  q_limit : Z
}.

Definition server_error : Response :=
  status_json 500
    (JObj [("message", JStr "Server error retrieving requests");
           ("error", JStr "Internal server error")]).

Definition given (p : option string) : bool :=
  match p with
  | Some s => negb (String.eqb s "")
  | None => false
  end.

(** The Mongo query built in lines 21-29. *)
Definition query (userId : Id) (q : Query) (doc : Id * Request) : bool :=
  bool_decide (user doc.2 = userId)
  && (if given (q_type q)
      then bool_decide (q_type q = Some (type_name (type doc.2)))
      else true)
  && (match q_status q with
      | Some s =>
          if given (q_status q)
          then existsb (String.eqb (status_name (status doc.2)))
                       (map trim (split_commas s))
          else true
      | None => true
      end).

Definition sortCriteria (q : Query) : Store.Sort :=
  match q_sortBy q with
  | Some "oldest" => Store.createdAt_asc
  | Some "updated" => Store.updatedAt_desc
  | _ => Store.createdAt_desc
  end.

Definition populated_accepters (users : Users) (r : Request) : list Json :=
  map (fun a => accepter_json (populated users contact_of (a_user a)) a)
      (accepters r).

(** [{ ...accepter, user: { _id, name: 'Hidden', email: 'Hidden',
    phone: 'Hidden' } }] *)
Definition hidden_accepter (a : Accepter) : Json :=
  accepter_json
    (JObj [("_id", JStr (a_user a)); ("name", Hidden);
           ("email", Hidden); ("phone", Hidden)]) a.

(** The callback of [requests.map], lines 57-88. [request.user] is not
    populated by this route. *)
Definition filtered (users : Users) (userId : Id) (doc : Id * Request)
  : option Json :=
  let request := doc.2 in
  let isOwner := bool_decide (user request = userId) in
  isAccepter ← some_accepter users userId (accepters request);
  if isOwner || isAccepter
  then Some (document doc.1 request (JStr (user request))
               (populated_accepters users request))
  else
    let filteredRequest :=
      document doc.1 request (JStr (user request))
        (map hidden_accepter (accepters request)) in
    Some (if negb isOwner then set "phone" Hidden filteredRequest
          else filteredRequest).

(** [Math.ceil(total / limit)]; not a number when [limit] is 0, which
    is sent as [null]. *)
Definition pages (total limit : Z) : Json :=
  if limit =? 0 then JNull else JNum (- ((- total) / limit)).

Definition get_requests (users : Users) (requests : Requests)
    (userId : Id) (q : Query) : Response :=
  let skip := (q_page q - 1) * q_limit q in
  match Store.find (query userId q) (sortCriteria q) skip (q_limit q) requests with
  | None => server_error
  | Some found =>
      let total := Store.countDocuments (query userId q) requests in
      match mapM (filtered users userId) found with
      | None => server_error
      | Some filteredRequests =>
          json (JObj
            [("message", JStr "Requests retrieved successfully");
             ("requests", JArr filteredRequests);
             ("pagination", JObj
                [("current", JNum (q_page q));
                 ("total", pages total (q_limit q));
                 ("count", JNum (Z.of_nat (length filteredRequests)));
                 ("totalRequests", JNum total)])])
      end
  end.

End Listing.

(** ** GET /public/blood *)

Module Public.

Definition server_error : Response :=
  failure 500 "Failed to fetch blood requests".

Definition query (userId : Id) (doc : Id * Request) : bool :=
  bool_decide (type doc.2 = blood)
  && bool_decide (status doc.2 = pending)
  && negb (bool_decide (user doc.2 = userId))
  && bool_decide (accepters doc.2 = []).

(** The callback of [requests.map], lines 518-531; [request.user] is
    populated with [name] only, and is [null] when the owner does not
    exist. *)
Definition item (users : Users) (doc : Id * Request) : option Json :=
  let request := doc.2 in
  match users !! user request with
  | None => None
  | Some _ =>
      Some (object
        [("_id", Some (JStr doc.1));
         ("name", paths request !! "name");
         ("phone", Some Hidden);
         ("location", paths request !! "location");
         ("bloodType", paths request !! "bloodType");
         ("urgencyLevel", paths request !! "urgencyLevel");
         ("status", Some (JStr (status_name (status request))));
         ("createdAt", Some (JDate (createdAt request)));
         ("user", Some (JObj [("_id", JStr (user request));
                              ("name", Hidden)]))])
  end.

Definition get_public_blood (users : Users) (requests : Requests)
    (userId : Id) : Response :=
  match Store.find (query userId) Store.createdAt_desc 0 50 requests with
  | None => server_error
  | Some found =>
      match mapM (item users) found with
      | None => server_error
      | Some items =>
          json (JObj [("success", JBool true); ("requests", JArr items)])
      end
  end.

End Public.

(** ** GET /:id/contacts *)

Module Contacts.

Definition request_not_found : Response := failure 404 "Request not found".
Definition wrong_type : Response :=
  failure 400 "Contact details only available for blood requests".
Definition access_denied : Response :=
  failure 403 "Access denied. Only requester and donor can view contact details.".
Definition not_accepted : Response :=
  failure 400 "Contact details only available for accepted requests".
Definition server_error : Response :=
  failure 500 "Failed to fetch contact details".

(** [accepter ? { name, phone, email, acceptedAt } : null], where
    [accepter] is [request.accepters[0]] with its populated user. *)
Definition donor (users : Users) (accepter : option Accepter) : option Json :=
  match accepter with
  | None => Some JNull
  | Some a =>
      match users !! a_user a with
      | None => None
      | Some u =>
          Some (object (contact_of u
                        ++ [("acceptedAt", Some (JDate (acceptedAt a)))]))
      end
  end.

(** The object of lines 588-608, which [GET /blood/accepted] builds for
    each of its items as well. *)
Definition match_view (id : Id) (request : Request) (isRequester : bool)
    (owner : User) (donor_json : Json) : Json :=
  let accepter := head (accepters request) in
  object
    [("_id", Some (JStr id));
     ("bloodType", paths request !! "bloodType");
     ("urgencyLevel", paths request !! "urgencyLevel");
     ("location", paths request !! "location");
     ("status", Some (JStr (status_name (status request))));
     ("createdAt", Some (JDate (createdAt request)));
     ("acceptedAt", (fun a => JDate (acceptedAt a)) <$> accepter);
     ("userRole", Some (JStr (if isRequester then "requester" else "donor")));
     ("requester", Some (object (contact_of owner)));
     ("donor", Some donor_json)].

Definition contacts_body (id : Id) (request : Request) (isRequester : bool)
    (owner : User) (donor_json : Json) : Json :=
  JObj [("success", JBool true);
        ("request", match_view id request isRequester owner donor_json)].

Definition get_contacts (users : Users) (requests : Requests)
    (id userId : Id) : Response :=
  match requests !! id with
  | None => request_not_found
  | Some request =>
      if negb (bool_decide (type request = blood)) then wrong_type
      else
        match users !! user request with
        | None => server_error
        | Some owner =>
            let isRequester := bool_decide (user request = userId) in
            match some_accepter users userId (accepters request) with
            | None => server_error
            | Some isAccepter =>
                if negb isRequester && negb isAccepter then access_denied
                else if negb (bool_decide (status request = accepted))
                then not_accepted
                else
                  match donor users (head (accepters request)) with
                  | None => server_error
                  | Some donor_json =>
                      json (contacts_body id request isRequester owner donor_json)
                  end
            end
        end
  end.

End Contacts.

(** ** GET /accepted, GET /blood/accepted and GET /:id/accepters *)

Module Accepted.

Definition server_error : Response :=
  failure 500 "Failed to fetch accepted requests".

(** [{ 'accepters.user': userId }] *)
Definition query (userId : Id) (doc : Id * Request) : bool :=
  existsb (fun a => bool_decide (a_user a = userId)) (accepters doc.2).

(** [accepters.find(accepter => accepter.user._id.toString() === userId)]
    over populated accepters; [None] is the exception of reading [_id]
    from a user that does not exist. *)
Fixpoint userAcceptance (users : Users) (userId : Id) (l : list Accepter)
  : option (option Accepter) :=
  match l with
  | [] => Some None
  | accepter :: rest =>
      match users !! a_user accepter with
      | None => None
      | Some _ =>
          if bool_decide (a_user accepter = userId) then Some (Some accepter)
          else userAcceptance users userId rest
      end
  end.

Definition name_email (u : User) : list (string * option Json) :=
  [("name", Some (JStr (name u))); ("email", Some (JStr (email u)))].

(** The callback of [requests.map], lines 263-284. The status of an
    acceptance record is never empty, so [status || 'accepted'] is the
    record's status when there is one. *)
Definition item (users : Users) (userId : Id) (clock : Clock)
    (doc : Id * Request) : option Json :=
  let request := doc.2 in
  found ← userAcceptance users userId (accepters request);
  Some (object
    [("_id", Some (JStr doc.1));
     ("type", Some (JStr (type_name (type request))));
     ("name", paths request !! "name");
     ("phone", paths request !! "phone");
     ("location", paths request !! "location");
     ("bloodType", paths request !! "bloodType");
     ("urgencyLevel", paths request !! "urgencyLevel");
     ("status", Some (JStr (status_name (status request))));
     ("createdAt", Some (JDate (createdAt request)));
     ("requester", Some (populated users name_email (user request)));
     ("acceptance", Some (JObj
        [("acceptedAt",
          JDate (match found with
                 | Some a => acceptedAt a
                 | None => clock 0%nat
                 end));
         ("status",
          JStr (match found with
                | Some a => if String.eqb (a_status a) "" then "accepted"
                            else a_status a
                | None => "accepted"
                end))]))]).

Definition get_accepted (users : Users) (requests : Requests)
    (userId : Id) (clock : Clock) : Response :=
  match Store.find (query userId) Store.acceptedAt_desc 0 0 requests with
  | None => server_error
  | Some found =>
      match mapM (item users userId clock) found with
      | None => server_error
      | Some acceptedRequests =>
          json (JObj [("success", JBool true);
                      ("requests", JArr acceptedRequests)])
      end
  end.

End Accepted.

Module BloodAccepted.

Definition server_error : Response :=
  failure 500 "Failed to fetch accepted blood requests".

Definition query (userId : Id) (doc : Id * Request) : bool :=
  bool_decide (type doc.2 = blood)
  && bool_decide (status doc.2 = accepted)
  && (bool_decide (user doc.2 = userId)
      || existsb (fun a => bool_decide (a_user a = userId)) (accepters doc.2)).

(** The callback of [requests.map], lines 315-340. *)
Definition item (users : Users) (userId : Id) (doc : Id * Request)
  : option Json :=
  let request := doc.2 in
  owner ← users !! user request;
  donor_json ← Contacts.donor users (head (accepters request));
  Some (Contacts.match_view doc.1 request
          (bool_decide (user request = userId)) owner donor_json).

Definition get_blood_accepted (users : Users) (requests : Requests)
    (userId : Id) : Response :=
  match Store.find (query userId) Store.updatedAt_desc 0 0 requests with
  | None => server_error
  | Some found =>
      match mapM (item users userId) found with
      | None => server_error
      | Some acceptedRequests =>
          json (JObj [("success", JBool true);
                      ("requests", JArr acceptedRequests)])
      end
  end.

End BloodAccepted.

Module Accepters.

Definition request_not_found : Response := failure 404 "Request not found".
Definition not_authorized : Response :=
  failure 403 "Not authorized to view accepters for this request".

(** The generated [_id] of an acceptance record is not part of the
    records here, so it is not part of the items. *)
Definition get_accepters (users : Users) (requests : Requests)
    (id userId : Id) : Response :=
  match requests !! id with
  | None => request_not_found
  | Some request =>
      if negb (bool_decide (user request = userId)) then not_authorized
      else json (JObj
             [("success", JBool true);
              ("accepters", JArr (Listing.populated_accepters users request))])
  end.

End Accepters.

(** ** The operations of the system, one at a time *)

Inductive Operation :=
| create (userId : Id) (errors : list Json) (body : gmap string Json)
         (newId : Id) (clock : Clock)
| update (id userId : Id) (body : gmap string Json) (clock : Clock)
         (declared : bool)
| delete_ (id userId : Id)
| volunteer (id userId : Id) (clock : Clock)
| list_ (userId : Id) (q : Listing.Query)
| get_ (id userId : Id)
| public_blood (userId : Id)
| contacts (id userId : Id)
| accepted_by (userId : Id) (clock : Clock)
| blood_accepted (userId : Id)
| accepters_of (id userId : Id).

(** One handler run to completion against the collections, with no other
    run between its read and its save. *)
Definition perform (users : Users) (op : Operation) (requests : Requests)
  : Response * Requests :=
  match op with
  | create userId errors body newId clock =>
      Create.post_request users requests userId errors body newId clock
  | update id userId body clock declared =>
      Update.put_request users requests id userId body clock declared
  | delete_ id userId => Delete.delete_request requests id userId
  | volunteer id userId clock =>
      Volunteer.post_volunteer users requests id userId clock
  | list_ userId q => (Listing.get_requests users requests userId q, requests)
  | get_ id userId => (Get.get_request users requests id userId, requests)
  | public_blood userId =>
      (Public.get_public_blood users requests userId, requests)
  | contacts id userId =>
      (Contacts.get_contacts users requests id userId, requests)
  | accepted_by userId clock =>
      (Accepted.get_accepted users requests userId clock, requests)
  | blood_accepted userId =>
      (BloodAccepted.get_blood_accepted users requests userId, requests)
  | accepters_of id userId =>
      (Accepters.get_accepters users requests id userId, requests)
  end.

(** The collection after a sequence of operations carried out one after
    another, each handler run to completion before the next starts. Runs
    that overlap are the subject of [Race]. *)
Definition perform_all (users : Users) (ops : list Operation)
    (requests : Requests) : Requests :=
  foldl (fun rs op => (perform users op rs).2) requests ops.

(** I1: a blood request has at most one accepter. *)
Definition single_acceptor (requests : Requests) : Prop :=
  ∀ id r, requests !! id = Some r → type r = blood →
          (length (accepters r) ≤ 1)%nat.

(** ** Interleaved runs of POST /:id/volunteer *)

Module Race.

(** How [request.save()] reaches the stored document: by writing the
    handler's copy over it, or by sending the changes the handler made
    to its copy (the pushed record and the new status). The schema and
    the store are not among the sources, so both are considered. *)
Inductive Save := replace_document | send_changes.

(** Where a handler run stands: before [Request.findById] has resolved;
    holding the document it read; finished with a response. Between
    the read and the save the handler awaits, and other runs proceed. *)
Inductive Stage :=
| Waiting
| Holding (found : option Request)
| Finished (r : Response).

Record Run := { userId : Id; clock : Clock; stage : Stage }.

Record Config := { stored : Requests; runs : list Run }.

Definition commit (mode : Save) (id : Id) (saved : Request) (a : Accepter)
    (now : Time) (requests : Requests) : option Requests :=
  match requests !! id with
  | None => None
  | Some current =>
      Some (<[id := stamped
                      match mode with
                      | replace_document => saved
                      | send_changes => with_acceptance current a
                      end now]> requests)
  end.

(** One step of one run against request [id]. *)
Definition advance (mode : Save) (users : Users) (id : Id)
    (requests : Requests) (run : Run) : Requests * Run :=
  match stage run with
  | Waiting =>
      (requests,
       {| userId := userId run; clock := clock run;
          stage := Holding (requests !! id) |})
  | Holding found =>
      match Volunteer.decide_volunteer users found (userId run) (clock run) with
      | Volunteer.Reject r =>
          (requests,
           {| userId := userId run; clock := clock run; stage := Finished r |})
      | Volunteer.Accept saved owner profile =>
          match commit mode id saved
                  (Volunteer.acceptance (userId run) (clock run))
                  (Volunteer.saved_at (clock run)) requests with
          | None =>
              (requests,
               {| userId := userId run; clock := clock run;
                  stage := Finished Volunteer.server_error |})
          | Some requests' =>
              (requests',
               {| userId := userId run; clock := clock run;
                  stage := Finished
                    (json (Volunteer.accepted_body id saved owner profile
                             (clock run))) |})
          end
      end
  | Finished _ => (requests, run)
  end.

(** The scheduler lets run number [i] take its next step. *)
Definition step (mode : Save) (users : Users) (id : Id) (i : nat)
    (c : Config) : Config :=
  match runs c !! i with
  | None => c
  | Some run =>
      let '(requests', run') := advance mode users id (stored c) run in
      {| stored := requests'; runs := <[i := run']> (runs c) |}
  end.

Definition schedule (mode : Save) (users : Users) (id : Id)
    (order : list nat) (c : Config) : Config :=
  foldl (fun c i => step mode users id i c) c order.

Definition start (requests : Requests) (callers : list (Id * Clock)) : Config :=
  {| stored := requests;
     runs := map (fun '(u, k) => {| userId := u; clock := k; stage := Waiting |})
                 callers |}.

(** The responses of the finished runs, in run order. *)
Definition responses (c : Config) : list (option Response) :=
  map (fun run => match stage run with
                  | Finished r => Some r
                  | _ => None
                  end) (runs c).

Definition succeeded (r : option Response) : bool :=
  match r with
  | Some r => bool_decide (code r = 200%nat)
  | None => false
  end.

End Race.

(** ** Reading responses *)

(** [o.k1.k2...] *)
Fixpoint path (keys : list string) (o : Json) : option Json :=
  match keys with
  | [] => Some o
  | k :: rest =>
      match get k o with
      | Some v => path rest v
      | None => None
      end
  end.

(** Does the date [t] occur anywhere inside [j]? *)
Fixpoint mentions_date (t : Time) (j : Json) : bool :=
  match j with
  | JDate t' => t =? t'
  | JArr items =>
      (fix any (l : list Json) : bool :=
         match l with [] => false | x :: l' => mentions_date t x || any l' end) items
  | JObj fields =>
      (fix any (l : list (string * Json)) : bool :=
         match l with
         | [] => false
         | (_, x) :: l' => mentions_date t x || any l'
         end) fields
  | _ => false
  end.

(** The items of a listing response. *)
Definition listed (r : Response) : list Json :=
  match get "requests" (body r) with
  | Some (JArr items) => items
  | _ => []
  end.

(** ** The preconditions of the volunteer operation, as stated *)

Module Preconditions.

(** A check that holds or not, with the failure it produces. *)
Definition Check := (bool * Response)%type.

(** The failure of the first check that does not hold. *)
Fixpoint first_violated (checks : list Check) : option Response :=
  match checks with
  | [] => None
  | (holds, failure) :: rest =>
      if holds then first_violated rest else Some failure
  end.

(** The four preconditions in the order the specification gives them:
    the request exists, it is a blood request, the candidate is not its
    owner, it has no accepter. *)
Definition stated (found : option Request) (userId : Id) : list Check :=
  match found with
  | None => [(false, Volunteer.request_not_found)]
  | Some request =>
      [(true, Volunteer.request_not_found);
       (bool_decide (type request = blood), Volunteer.wrong_type);
       (negb (bool_decide (user request = userId)), Volunteer.self_acceptance);
       (bool_decide (accepters request = []), Volunteer.already_accepted)]
  end.

(** The same with the check the handler makes between the last two: the
    candidate has a profile. *)
Definition checked (users : Users) (found : option Request) (userId : Id)
  : list Check :=
  match found with
  | None => [(false, Volunteer.request_not_found)]
  | Some request =>
      [(true, Volunteer.request_not_found);
       (bool_decide (type request = blood), Volunteer.wrong_type);
       (negb (bool_decide (user request = userId)), Volunteer.self_acceptance);
       (bool_decide (is_Some (users !! userId)), Volunteer.volunteer_not_found);
       (bool_decide (accepters request = []), Volunteer.already_accepted)]
  end.

End Preconditions.

(** ** A small world: scenarios A and B of the specification *)

Module Scenario.

Definition asha : User :=
  {| name := "Asha"; phone := "9000000001"; email := "asha@example.org";
     role := citizen |}.
Definition ben : User :=
  {| name := "Ben"; phone := "9000000002"; email := "ben@example.org";
     role := volunteer_role |}.
Definition chitra : User :=
  {| name := "Chitra"; phone := "9000000003"; email := "chitra@example.org";
     role := volunteer_role |}.
Definition dev : User :=
  {| name := "Dev"; phone := ""; email := "dev@example.org";
     role := citizen |}.

Definition users : Users :=
  <["u1" := asha]> (<["u2" := ben]> (<["u3" := chitra]> (<["u4" := dev]> ∅))).

(** The body of scenario A's create call. *)
Definition body_R1 : gmap string Json :=
  <["type" := JStr "blood"]>
    (<["name" := JStr "Asha K"]>
       (<["location" := JObj [("address", JStr "12 Lake Road")]]>
          (<["bloodType" := JStr "O+"]>
             (<["urgencyLevel" := JStr "urgent"]> ∅)))).

Definition clock (n : nat) : Time := 1000 + Z.of_nat n.
Definition later (n : nat) : Time := 2000 + Z.of_nat n.

(** Scenario A: U1 creates R1. *)
Definition after_A : Requests :=
  (Create.post_request users ∅ "u1" [] body_R1 "r1" clock).2.

(** Scenario B: U2 volunteers for R1. *)
Definition after_B : Requests :=
  (Volunteer.post_volunteer users after_A "r1" "u2" later).2.

(** R1 as stored after scenario A and after scenario B. *)
Definition R1 : Request :=
  Create.new_Request blood "u1"
    (Create.requestData blood body_R1 (JStr "9000000001")) 1000.

Definition R1_accepted : Request :=
  stamped (with_acceptance R1 (Volunteer.acceptance "u2" later))
          (Volunteer.saved_at later).

Definition all : Listing.Query :=
  {| Listing.q_type := None; Listing.q_status := None;
     Listing.q_sortBy := None; Listing.q_page := 1; Listing.q_limit := 10 |}.

End Scenario.

(** ** Where a stored request comes from *)

(** A request found in the collection after an operation was there before
    with the same type, owner, status and accepters; or it was created by
    the operation, pending and without accepters; or the operation was a
    volunteer call on it, it was a blood request without accepters owned
    by someone else, and it now has the caller's acceptance record. *)
Inductive Origin (requests : Requests) (op : Operation) (id : Id)
    (r' : Request) : Prop :=
| kept (r0 : Request) :
    requests !! id = Some r0 → type r' = type r0 → user r' = user r0 →
    status r' = status r0 → accepters r' = accepters r0 →
    Origin requests op id r'
| created :
    status r' = pending → accepters r' = [] → Origin requests op id r'
| matched (userId : Id) (clock : Clock) (r0 : Request) :
    op = volunteer id userId clock → requests !! id = Some r0 →
    type r0 = blood → user r0 ≠ userId → accepters r0 = [] →
    r' = stamped (with_acceptance r0 (Volunteer.acceptance userId clock))
                 (Volunteer.saved_at clock) →
    Origin requests op id r'.

(** I2 and I3 for blood requests: accepted exactly when there is an
    accepter, and the owner is no accepter. *)
Definition matched_iff_accepted (requests : Requests) : Prop :=
  ∀ id r, requests !! id = Some r → type r = blood →
          (status r = accepted ↔ accepters r ≠ []).

Definition no_self_acceptance (requests : Requests) : Prop :=
  ∀ id r, requests !! id = Some r →
          ∀ a, a ∈ accepters r → a_user a ≠ user r.

(** ** A second request beside R1 *)

Module Crowd.

(** U3 creates R2 after scenario A; then U2 volunteers for R1. *)
Definition before_match : Requests :=
  (Create.post_request Scenario.users Scenario.after_A "u3" []
     Scenario.body_R1 "r2" Scenario.clock).2.

Definition after_match : Requests :=
  (Volunteer.post_volunteer Scenario.users before_match "r1" "u2"
     Scenario.later).2.

End Crowd.

(** ** A request under the owner's name *)

Module Named.



End Named.

(** ** Order of the items of a listing *)

(** Both items carry a date under [k], and the second is not later (not
    earlier) than the first. *)
Definition dates_descend (k : string) (x y : Json) : Prop :=
  ∃ tx ty, get k x = Some (JDate tx) ∧ get k y = Some (JDate ty) ∧ ty ≤ tx.

Definition dates_ascend (k : string) (x y : Json) : Prop :=
  ∃ tx ty, get k x = Some (JDate tx) ∧ get k y = Some (JDate ty) ∧ tx ≤ ty.

(** ** GET /, earlier revision *)

(** The second copy of the file holds an earlier revision of the routes.
    Its listing takes [status] as one value and sends the documents as
    found, their accepters not populated. *)
Module ListingV1.

(** [if (type) query.type = type; if (status) query.status = status] *)
Definition query (userId : Id) (q : Listing.Query) (doc : Id * Request)
  : bool :=
  bool_decide (user doc.2 = userId)
  && (if Listing.given (Listing.q_type q)
      then bool_decide (Listing.q_type q = Some (type_name (type doc.2)))
      else true)
  && (if Listing.given (Listing.q_status q)
      then bool_decide (Listing.q_status q
                        = Some (status_name (status doc.2)))
      else true).

Definition sent (doc : Id * Request) : Json :=
  document doc.1 doc.2 (JStr (user doc.2))
    (map (fun a => accepter_json (JStr (a_user a)) a) (accepters doc.2)).

Definition get_requests (requests : Requests) (userId : Id)
    (q : Listing.Query) : Response :=
  let skip := (Listing.q_page q - 1) * Listing.q_limit q in
  match Store.find (query userId q) (Listing.sortCriteria q) skip
          (Listing.q_limit q) requests with
  | None => Listing.server_error
  | Some found =>
      let total := Store.countDocuments (query userId q) requests in
      json (JObj
        [("message", JStr "Requests retrieved successfully");
         ("requests", JArr (map sent found));
         ("pagination", JObj
            [("current", JNum (Listing.q_page q));
             ("total", Listing.pages total (Listing.q_limit q));
             ("count", JNum (Z.of_nat (length found)));
             ("totalRequests", JNum total)])])
  end.

End ListingV1.

(** ** The page of the caller's requests *)

(** [client/src/pages/AllRequestsPage.js], as far as it calls the
    listing. *)
Module Client.

(** The state [filters]: [{ type, status, sortBy }]. *)
Record Filters := { f_type : string; f_status : string; f_sortBy : string }.

(** [if (value) queryParams.append(key, value)] *)
Definition appended (value : string) : option string :=
  if String.eqb value "" then None else Some value.

(** The query the route receives from [fetchRequests]: the filters that
    are not empty, and neither [page] nor [limit], for which the route
    takes its defaults 1 and 10. *)
Definition queryParams (f : Filters) : Listing.Query :=
  {| Listing.q_type := appended (f_type f);
     Listing.q_status := appended (f_status f);
     Listing.q_sortBy := appended (f_sortBy f);
     Listing.q_page := 1; Listing.q_limit := 10 |}.

(** [response.ok] *)
Definition ok (r : Response) : bool :=
  ((200 <=? code r) && (code r <=? 299))%nat.

(** The state [requests] after [fetchRequests]: [data.requests] of an ok
    response, the empty list otherwise. *)
Definition fetchRequests (users : Users) (requests : Requests)
    (userId : Id) (f : Filters) : list Json :=
  let response := Listing.get_requests users requests userId (queryParams f) in
  if ok response then listed response else [].

End Client.

(** ** Parts of a status filter *)

(** A string without a comma: [split(',')] leaves it whole. *)
Fixpoint no_comma (s : string) : bool :=
  match s with
  | EmptyString => true
  | String c rest => negb (Ascii.eqb c ","%char) && no_comma rest
  end.

(** * Properties *)

(** ** The volunteer operation *)

Section VolunteerFacts.

Variables (users : Users) (requests : Requests) (id userId : Id)
          (clock : Clock).

(** Every rejection leaves the collection as it was. *)
Lemma post_volunteer_reject r :
  Volunteer.decide_volunteer users (requests !! id) userId clock
    = Volunteer.Reject r →
  Volunteer.post_volunteer users requests id userId clock = (r, requests).
Proof. unfold Volunteer.post_volunteer. by intros ->. Qed.

(** The handler accepts exactly when all its checks pass, and then it
    saves the document it read with one more accepter. *)
Lemma decide_volunteer_accept saved owner profile :
  Volunteer.decide_volunteer users (requests !! id) userId clock
    = Volunteer.Accept saved owner profile →
  ∃ request,
    requests !! id = Some request ∧ type request = blood
    ∧ users !! user request = Some owner ∧ user request ≠ userId
    ∧ users !! userId = Some profile ∧ accepters request = []
    ∧ saved = with_acceptance request (Volunteer.acceptance userId clock).
Proof.
  unfold Volunteer.decide_volunteer.
  destruct (requests !! id) as [request|]; [|done].
  case_bool_decide as Htype; simpl; [|done].
  destruct (users !! user request) as [o|] eqn:Ho; [|done].
  case_bool_decide as Hself; [done|].
  destruct (users !! userId) as [p|] eqn:Hp; [|done].
  destruct (accepters request) as [|a l] eqn:Hacc; simpl; [|done].
  intros [= <- <- <-]. exists request. repeat split; auto.
Qed.

(** A response with code 200 is the response of an acceptance. *)
Lemma post_volunteer_200 response requests' :
  Volunteer.post_volunteer users requests id userId clock
    = (response, requests') →
  code response = 200%nat →
  ∃ saved owner profile,
    Volunteer.decide_volunteer users (requests !! id) userId clock
      = Volunteer.Accept saved owner profile
    ∧ response = json (Volunteer.accepted_body id saved owner profile clock)
    ∧ requests' = <[id := stamped saved (Volunteer.saved_at clock)]> requests.
Proof.
  unfold Volunteer.post_volunteer.
  destruct (Volunteer.decide_volunteer _ _ _ _) as [r|saved owner profile] eqn:Hd.
  - intros [= <- <-] Hcode. exfalso. revert Hd Hcode.
    unfold Volunteer.decide_volunteer.
    repeat (case_match; try case_bool_decide; simpl in *; try done);
      by intros [= <-].
  - intros [= <- <-] _. by exists saved, owner, profile.
Qed.

End VolunteerFacts.

(** The five failures the checks of the handler produce differ from one
    another. *)
Lemma volunteer_failures_distinct :
  NoDup [Volunteer.request_not_found; Volunteer.wrong_type;
         Volunteer.self_acceptance; Volunteer.volunteer_not_found;
         Volunteer.already_accepted].
Proof.
  repeat (apply NoDup_cons; split;
          [rewrite ?elem_of_cons, elem_of_nil; intros H;
           repeat (destruct H as [H|H]; [discriminate H|]); exact H|]).
  apply NoDup_nil_2.
Qed.

(** C10: the "already volunteered" branch is dead. Whenever its test
    would be true the accepters are not empty, so the check before it has
    already answered; whatever document the handler has read, it does not
    decide on the already-volunteered failure, and no run of the handler
    answers with it. *)
Theorem already_volunteered_unreachable
    (users : Users) (requests : Requests) (id userId : Id) (clock : Clock) :
  (∀ request : Request,
     existsb (fun accepter => bool_decide (a_user accepter = userId))
             (accepters request) = true →
     (0 <? length (accepters request))%nat = true)
  ∧ (∀ found : option Request,
       Volunteer.decide_volunteer users found userId clock
       ≠ Volunteer.Reject Volunteer.already_volunteered)
  ∧ (Volunteer.post_volunteer users requests id userId clock).1
      ≠ Volunteer.already_volunteered.
Proof.
  split; [|split].
  - intros request. by destruct (accepters request).
  - intros found. unfold Volunteer.decide_volunteer.
    destruct found as [request|]; [|done].
    case_bool_decide; simpl; [|done].
    destruct (users !! user request); [|done].
    case_bool_decide; [done|].
    destruct (users !! userId); [|done].
    by destruct (accepters request).
  - unfold Volunteer.post_volunteer, Volunteer.decide_volunteer.
    destruct (requests !! id) as [request|]; [|done].
    case_bool_decide; simpl; [|done].
    destruct (users !! user request); [|done].
    case_bool_decide; [done|].
    destruct (users !! userId); [|done].
    by destruct (accepters request).
Qed.

(** C3, as the code has it: the handler checks, in this order, that the
    request exists, that it is a blood request, that the candidate is not
    its owner, that the candidate has a profile, and that the request has
    no accepter. Each check has its own failure, and when the owner of the
    request has a profile the response is the failure of the first check
    that does not hold, or the 200 response when all hold. *)
Theorem volunteer_checks_in_order
    (users : Users) (requests : Requests) (id userId : Id) (clock : Clock) :
  (∀ request, requests !! id = Some request → is_Some (users !! user request)) →
  NoDup (map snd (Preconditions.checked users (requests !! id) userId))
  ∧ match Preconditions.first_violated
            (Preconditions.checked users (requests !! id) userId) with
    | Some failure =>
        Volunteer.post_volunteer users requests id userId clock
          = (failure, requests)
    | None =>
        code (Volunteer.post_volunteer users requests id userId clock).1
          = 200%nat
    end.
Proof.
  intros Howner. split.
  - destruct (requests !! id); simpl.
    + apply volunteer_failures_distinct.
    + apply NoDup_singleton.
  - unfold Volunteer.post_volunteer, Volunteer.decide_volunteer.
    destruct (requests !! id) as [request|] eqn:Hfound; simpl; [|done].
    destruct (Howner request eq_refl) as [owner ->].
    case_bool_decide; simpl; [|done].
    case_bool_decide; simpl; [done|].
    destruct (users !! userId) eqn:Hprofile; simpl.
    + by destruct (accepters request).
    + done.
Qed.

Lemma volunteer_checks_in_order_witness :
  Volunteer.post_volunteer Scenario.users Scenario.after_B "r1" "u3"
    Scenario.later
  = (Volunteer.already_accepted, Scenario.after_B).
Proof.
  pose proof (volunteer_checks_in_order Scenario.users Scenario.after_B
                "r1" "u3" Scenario.later) as H.
  destruct H as [_ H].
  - intros request Hr. vm_compute in Hr. injection Hr as <-.
    vm_compute. eauto.
  - exact H.
Defined.

(** C3, as stated, fails: a caller without a profile who volunteers for a
    request that already has an accepter violates only the last of the
    four stated preconditions, and is answered "Volunteer not found". *)
Lemma volunteer_checks_stated_counterexample :
  Preconditions.first_violated
    (Preconditions.stated (Scenario.after_B !! "r1") "u9")
    = Some Volunteer.already_accepted
  ∧ (Volunteer.post_volunteer Scenario.users Scenario.after_B "r1" "u9"
       Scenario.later).1 = Volunteer.volunteer_not_found
  ∧ Volunteer.volunteer_not_found ≠ Volunteer.already_accepted.
Proof. vm_compute. repeat split; discriminate. Qed.

(** What the success body carries, whatever the optional paths are. *)
Lemma accepted_body_paths id saved owner profile clock :
  let b := Volunteer.accepted_body id saved owner profile clock in
  path ["request"; "_id"] b = Some (JStr id)
  ∧ path ["request"; "status"] b = Some (JStr (status_name (status saved)))
  ∧ path ["request"; "userRole"] b = Some (JStr "donor")
  ∧ path ["request"; "acceptedAt"] b = Some (JDate (clock 1%nat))
  ∧ path ["request"; "requester"] b
      = Some (JObj [("name", JStr (name owner)); ("phone", JStr (phone owner));
                    ("email", JStr (email owner))])
  ∧ path ["request"; "donor"] b
      = Some (JObj [("name", JStr (name profile));
                    ("phone", JStr (phone profile));
                    ("email", JStr (email profile));
                    ("acceptedAt", JDate (clock 2%nat))]).
Proof.
  unfold Volunteer.accepted_body. simpl.
  destruct (paths saved !! "bloodType"), (paths saved !! "urgencyLevel"),
    (paths saved !! "location"); simpl; repeat split; reflexivity.
Qed.

(** C4, as the code has it: when the volunteer operation succeeds, the
    request had no accepter, and the stored request becomes the one read
    with the record [{candidate, now, "accepted"}] appended to its
    accepters, its status set to accepted and its [updatedAt] set by the
    store to the time of the save; its type, owner, creation time and
    paths, and every other request, are unchanged. The result is exactly
    [{success, message, request}], where [request] has the request's id,
    its blood type, urgency level and location, the status accepted, the
    creation time, a time stamp taken when the response is built, the
    role "donor", the owner's name, phone and email as requester, and the
    candidate's name, phone and email as donor with a second such time
    stamp. It has no [accepters] and no [user] property: neither the
    stored record nor an id of the owner is part of it. *)
Theorem volunteer_success_effect
    (users : Users) (requests requests' : Requests) (id userId : Id)
    (clock : Clock) (response : Response) :
  Volunteer.post_volunteer users requests id userId clock
    = (response, requests') →
  code response = 200%nat →
  ∃ request owner profile,
    requests !! id = Some request
    ∧ users !! user request = Some owner
    ∧ users !! userId = Some profile
    ∧ accepters request = []
    ∧ requests'
        = <[id := {| type := type request; user := user request;
                     status := accepted;
                     accepters := accepters request
                                  ++ [{| a_user := userId;
                                         acceptedAt := clock 0%nat;
                                         a_status := "accepted" |}];
                     createdAt := createdAt request;
                     updatedAt := clock 3%nat;
                     paths := paths request |}]> requests
    ∧ body response
        = object
            [("success", Some (JBool true));
             ("message", Some (JStr
                "Thank you for volunteering! You can now see the requester's contact details."));
             ("request", Some (object
                [("_id", Some (JStr id));
                 ("bloodType", paths request !! "bloodType");
                 ("urgencyLevel", paths request !! "urgencyLevel");
                 ("location", paths request !! "location");
                 ("status", Some (JStr "accepted"));
                 ("createdAt", Some (JDate (createdAt request)));
                 ("acceptedAt", Some (JDate (clock 1%nat)));
                 ("userRole", Some (JStr "donor"));
                 ("requester", Some (JObj
                    [("name", JStr (name owner));
                     ("phone", JStr (phone owner));
                     ("email", JStr (email owner))]));
                 ("donor", Some (JObj
                    [("name", JStr (name profile));
                     ("phone", JStr (phone profile));
                     ("email", JStr (email profile));
                     ("acceptedAt", JDate (clock 2%nat))]))]))]
    ∧ path ["request"; "accepters"] (body response) = None
    ∧ path ["request"; "user"] (body response) = None.
Proof.
  intros Hrun Hcode.
  destruct (post_volunteer_200 _ _ _ _ _ _ _ Hrun Hcode)
    as (saved & owner & profile & Hdecide & -> & ->).
  destruct (decide_volunteer_accept _ _ _ _ _ _ _ _ Hdecide)
    as (request & Hfound & _ & Howner & _ & Hprofile & Hnone & ->).
  exists request, owner, profile.
  split; [done|]. split; [done|]. split; [done|]. split; [done|].
  split; [done|].
  unfold Volunteer.accepted_body. cbn [json body with_acceptance paths
                                       status status_name createdAt].
  split; [reflexivity|].
  destruct (paths request !! "bloodType"), (paths request !! "urgencyLevel"),
    (paths request !! "location"); split; reflexivity.
Qed.

Lemma volunteer_success_effect_witness :
  ∃ request owner profile,
    Scenario.after_A !! "r1" = Some request
    ∧ Scenario.users !! user request = Some owner
    ∧ Scenario.users !! "u2" = Some profile
    ∧ accepters request = []
    ∧ Scenario.after_B
        = <["r1" := {| type := type request; user := user request;
                       status := accepted;
                       accepters := accepters request
                                    ++ [{| a_user := "u2";
                                           acceptedAt := Scenario.later 0%nat;
                                           a_status := "accepted" |}];
                       createdAt := createdAt request;
                       updatedAt := Scenario.later 3%nat;
                       paths := paths request |}]> Scenario.after_A
    ∧ body (Volunteer.post_volunteer Scenario.users Scenario.after_A
              "r1" "u2" Scenario.later).1
        = object
            [("success", Some (JBool true));
             ("message", Some (JStr
                "Thank you for volunteering! You can now see the requester's contact details."));
             ("request", Some (object
                [("_id", Some (JStr "r1"));
                 ("bloodType", paths request !! "bloodType");
                 ("urgencyLevel", paths request !! "urgencyLevel");
                 ("location", paths request !! "location");
                 ("status", Some (JStr "accepted"));
                 ("createdAt", Some (JDate (createdAt request)));
                 ("acceptedAt", Some (JDate (Scenario.later 1%nat)));
                 ("userRole", Some (JStr "donor"));
                 ("requester", Some (JObj
                    [("name", JStr (name owner));
                     ("phone", JStr (phone owner));
                     ("email", JStr (email owner))]));
                 ("donor", Some (JObj
                    [("name", JStr (name profile));
                     ("phone", JStr (phone profile));
                     ("email", JStr (email profile));
                     ("acceptedAt", JDate (Scenario.later 2%nat))]))]))]
    ∧ path ["request"; "accepters"]
        (body (Volunteer.post_volunteer Scenario.users Scenario.after_A
                 "r1" "u2" Scenario.later).1) = None
    ∧ path ["request"; "user"]
        (body (Volunteer.post_volunteer Scenario.users Scenario.after_A
                 "r1" "u2" Scenario.later).1) = None.
Proof.
  apply (volunteer_success_effect Scenario.users Scenario.after_A
           Scenario.after_B "r1" "u2" Scenario.later
           (Volunteer.post_volunteer Scenario.users Scenario.after_A
              "r1" "u2" Scenario.later).1).
  - reflexivity.
  - vm_compute. reflexivity.
Defined.

(** C4, as stated, fails in its last part: in scenario B the result of
    the successful call names neither the owner's id nor the candidate's
    id, and the time stamp of the stored acceptance record does not occur
    in it, so it contains neither the acceptance record nor the owner id. *)
Lemma volunteer_result_counterexample :
  let response :=
    (Volunteer.post_volunteer Scenario.users Scenario.after_A "r1" "u2"
       Scenario.later).1 in
  code response = 200%nat
  ∧ (accepters <$> Scenario.after_B !! "r1")
      = Some [{| a_user := "u2"; acceptedAt := 2000; a_status := "accepted" |}]
  ∧ (user <$> Scenario.after_A !! "r1") = Some "u1"
  ∧ mentions "u1" (body response) = false
  ∧ mentions "u2" (body response) = false
  ∧ mentions_date 2000 (body response) = false.
Proof. vm_compute. repeat split; reflexivity. Qed.

(** ** The single-acceptor invariant, one operation at a time *)

(** The save of the update route changes [updatedAt] at most. *)
Lemma save_frame read assigned now :
  type (Update.save read assigned now) = type assigned
  ∧ user (Update.save read assigned now) = user assigned
  ∧ status (Update.save read assigned now) = status assigned
  ∧ accepters (Update.save read assigned now) = accepters assigned
  ∧ createdAt (Update.save read assigned now) = createdAt assigned
  ∧ paths (Update.save read assigned now) = paths assigned.
Proof. unfold Update.save. by case_decide. Qed.

Section Invariants.

Variable users : Users.

Lemma unchanged_kept requests op id r :
  requests !! id = Some r → Origin requests op id r.
Proof. intros H. by apply (kept _ _ _ _ r). Qed.

(** Every request in the collection after an operation has one of the
    three origins. *)
Lemma perform_origin op requests id r' :
  (perform users op requests).2 !! id = Some r' →
  Origin requests op id r'.
Proof.
  destruct op as [userId errors body newId clock
                 | id0 userId body clock declared
                 | id0 userId | id0 userId clock | | | | | | | ]; simpl;
    try apply unchanged_kept.
  - (* create *)
    unfold Create.post_request.
    destruct errors; [|apply unchanged_kept].
    destruct (Create.phoneNumber _ _ _); [|apply unchanged_kept].
    destruct (negb _); [apply unchanged_kept|].
    destruct (Create.body_type body); [|apply unchanged_kept]. simpl.
    destruct (decide (newId = id)) as [->|Hne].
    + rewrite lookup_insert_eq. intros [= <-]. by apply created.
    + rewrite lookup_insert_ne by done. apply unchanged_kept.
  - (* update *)
    unfold Update.put_request.
    destruct (requests !! id0) as [r0|] eqn:Hfound; [|apply unchanged_kept].
    destruct (negb _); [apply unchanged_kept|].
    destruct (negb _); [apply unchanged_kept|]. cbn [snd].
    destruct (decide (id0 = id)) as [->|Hne].
    + rewrite lookup_insert_eq. intros [= <-].
      destruct (save_frame r0
                  (Update.assign declared r0 (Update.updates_of (type r0) body))
                  (Update.saved_at clock)) as (Ht & Hu & Hs & Ha & _ & _).
      by apply (kept _ _ _ _ r0).
    + rewrite lookup_insert_ne by done. apply unchanged_kept.
  - (* delete *)
    unfold Delete.delete_request.
    destruct (requests !! id0) as [r0|]; [|apply unchanged_kept].
    destruct (negb _); [apply unchanged_kept|]. simpl.
    destruct (decide (id0 = id)) as [->|Hne].
    + by rewrite lookup_delete_eq.
    + rewrite lookup_delete_ne by done. apply unchanged_kept.
  - (* volunteer *)
    unfold Volunteer.post_volunteer.
    destruct (Volunteer.decide_volunteer _ _ _ _)
      as [r|saved owner profile] eqn:Hd; [apply unchanged_kept|]. simpl.
    destruct (decide_volunteer_accept _ _ _ _ _ _ _ _ Hd)
      as (r0 & Hfound & Hblood & _ & Hself & _ & Hnone & ->).
    destruct (decide (id0 = id)) as [->|Hne].
    + rewrite lookup_insert_eq. intros [= <-].
      by apply (matched _ _ _ _ userId clock r0).
    + rewrite lookup_insert_ne by done. apply unchanged_kept.
Qed.

Lemma perform_single_acceptor op requests :
  single_acceptor requests → single_acceptor (perform users op requests).2.
Proof.
  intros Hinv id r' Hr' Hblood.
  destruct (perform_origin _ _ _ _ Hr') as [r0 H0 Ht _ _ Ha | _ Ha | ? ? r0 _ H0 _ _ Ha ->].
  - rewrite Ha. apply (Hinv id r0 H0). congruence.
  - rewrite Ha. simpl. lia.
  - simpl. rewrite Ha. simpl. lia.
Qed.

Lemma perform_matched_iff_accepted op requests :
  matched_iff_accepted requests →
  matched_iff_accepted (perform users op requests).2.
Proof.
  intros Hinv id r' Hr' Hblood.
  destruct (perform_origin _ _ _ _ Hr') as [r0 H0 Ht _ Hs Ha | Hs Ha | ? ? r0 _ H0 _ _ Ha ->].
  - rewrite Hs, Ha. apply (Hinv id r0 H0). congruence.
  - rewrite Hs, Ha. split; done.
  - simpl. rewrite Ha. split; done.
Qed.

Lemma perform_no_self_acceptance op requests :
  no_self_acceptance requests →
  no_self_acceptance (perform users op requests).2.
Proof.
  intros Hinv id r' Hr' a.
  destruct (perform_origin _ _ _ _ Hr') as [r0 H0 _ Hu _ Ha | _ Ha | ? ? r0 _ H0 _ Hself Ha ->].
  - rewrite Hu, Ha. by apply (Hinv id r0 H0).
  - rewrite Ha. by intros ?%elem_of_nil.
  - simpl. rewrite Ha. simpl. intros ->%list_elem_of_singleton. simpl. congruence.
Qed.

(** The three invariants hold of every collection built from the empty
    one by handler runs carried out one after another. *)
Lemma reachable_invariants ops :
  single_acceptor (perform_all users ops ∅)
  ∧ matched_iff_accepted (perform_all users ops ∅)
  ∧ no_self_acceptance (perform_all users ops ∅).
Proof.
  unfold perform_all.
  induction ops as [|op ops IH] using rev_ind.
  - simpl. split; [|split]; intros ? ? Hr; by rewrite lookup_empty in Hr.
  - rewrite foldl_app. simpl. destruct IH as (H1 & H2 & H3).
    split; [|split].
    + by apply perform_single_acceptor.
    + by apply perform_matched_iff_accepted.
    + by apply perform_no_self_acceptance.
Qed.

End Invariants.

(** Handler runs that do not overlap keep the invariant: every operation
    (create, update, delete, volunteer and the reads), run to completion
    on a collection in which each blood request has at most one
    accepter, leaves such a collection; and a request whose accepters
    differ afterwards from what they were is the target of a volunteer
    call, had no accepter before, and has exactly the caller's record
    after. *)
Theorem single_acceptor_preserved
    (users : Users) (op : Operation) (requests : Requests) :
  single_acceptor requests →
  single_acceptor (perform users op requests).2
  ∧ ∀ id r', (perform users op requests).2 !! id = Some r' →
      accepters r' = []
      ∨ (∃ r0, requests !! id = Some r0 ∧ accepters r' = accepters r0)
      ∨ (∃ userId clock r0,
           op = volunteer id userId clock ∧ requests !! id = Some r0
           ∧ accepters r0 = []
           ∧ accepters r' = [Volunteer.acceptance userId clock]).
Proof.
  intros Hinv. split; [by apply perform_single_acceptor|].
  intros id r' Hr'.
  destruct (perform_origin _ _ _ _ _ Hr')
    as [r0 H0 _ _ _ Ha | _ Ha | userId clock r0 Hop H0 _ _ Ha ->].
  - right. left. eauto.
  - by left.
  - right. right. exists userId, clock, r0. simpl. by rewrite Ha.
Qed.

Lemma single_acceptor_preserved_witness :
  single_acceptor Scenario.after_B.
Proof.
  apply (single_acceptor_preserved Scenario.users
           (volunteer "r1" "u2" Scenario.later) Scenario.after_A).
  unfold single_acceptor.
  refine (proj1 (map_Forall_lookup
                   (fun _ r => type r = blood → (length (accepters r) ≤ 1)%nat)
                   Scenario.after_A) _).
  apply (bool_decide_unpack _). vm_compute. exact I.
Defined.

(** ** Interleaved volunteer calls *)

Section RaceFacts.

Variables (mode : Race.Save) (users : Users) (id : Id).

(** A run that is not interrupted between its read and its save is the
    handler run to completion, however the save is carried out. *)
Lemma run_alone requests caller clock :
  Race.schedule mode users id [0; 0]%nat
    (Race.start requests [(caller, clock)])
  = {| Race.stored :=
         (Volunteer.post_volunteer users requests id caller clock).2;
       Race.runs :=
         [{| Race.userId := caller; Race.clock := clock;
             Race.stage := Race.Finished
               (Volunteer.post_volunteer users requests id caller clock).1 |}] |}.
Proof.
  unfold Race.schedule, Race.start, Race.step, Race.advance,
    Volunteer.post_volunteer. simpl.
  destruct (Volunteer.decide_volunteer _ _ _ _)
    as [r|saved owner profile] eqn:Hd; [done|].
  destruct (decide_volunteer_accept _ _ _ _ _ _ _ _ Hd)
    as (request & Hfound & _ & _ & _ & _ & _ & ->).
  unfold Race.commit. rewrite Hfound. by destruct mode.
Qed.

(** The decision on a blood request without accepters, for a caller with
    a profile who is not its owner. *)
Lemma decide_volunteer_open request owner caller profile clock :
  type request = blood → accepters request = [] →
  users !! user request = Some owner → user request ≠ caller →
  users !! caller = Some profile →
  Volunteer.decide_volunteer users (Some request) caller clock
  = Volunteer.Accept
      (with_acceptance request (Volunteer.acceptance caller clock))
      owner profile.
Proof.
  intros Hblood Hnone Howner Hne Hp. unfold Volunteer.decide_volunteer.
  rewrite Howner, Hp, (bool_decide_eq_true_2 _ Hblood),
    (bool_decide_eq_false_2 _ Hne), Hnone. done.
Qed.

(** Two callers who both read the request before either saves are both
    told that they are the donor. *)
Lemma both_accepted requests request owner u2 u3 p2 p3 k2 k3 :
  requests !! id = Some request →
  type request = blood → accepters request = [] →
  users !! user request = Some owner →
  user request ≠ u2 → user request ≠ u3 →
  users !! u2 = Some p2 → users !! u3 = Some p3 →
  let final := Race.schedule mode users id [0; 1; 0; 1]%nat
                 (Race.start requests [(u2, k2); (u3, k3)]) in
  map Race.succeeded (Race.responses final) = [true; true]
  ∧ Race.stored final !! id
    = Some (stamped
              match mode with
              | Race.replace_document =>
                  with_acceptance request (Volunteer.acceptance u3 k3)
              | Race.send_changes =>
                  with_acceptance
                    (with_acceptance request (Volunteer.acceptance u2 k2))
                    (Volunteer.acceptance u3 k3)
              end (Volunteer.saved_at k3)).
Proof.
  intros Hfound Hblood Hnone Howner Hne2 Hne3 Hp2 Hp3.
  unfold Race.schedule, Race.start, Race.step, Race.advance. simpl.
  rewrite Hfound.
  rewrite (decide_volunteer_open request owner u2 p2 k2) by done.
  unfold Race.commit. rewrite Hfound.
  cbn -[Volunteer.decide_volunteer].
  rewrite (decide_volunteer_open request owner u3 p3 k3) by done.
  rewrite lookup_insert_eq. cbn. rewrite lookup_insert_eq.
  by destruct mode.
Qed.

End RaceFacts.

(** C1 evaluated on the code: in scenario A each blood request has at
    most one accepter. U2 and U3 volunteer for R1, and both handlers read
    it before either saves. When U2's handler has saved, the stored
    accepters are U2's record alone; U3's handler, which checked the copy
    it read earlier, then pushes and saves all the same and answers 200:
    the record is appended although the stored sequence is not empty.
    If the save sends the changes, R1 ends with two accepters and the
    invariant is broken. *)
Theorem race_breaks_single_acceptor :
  let start :=
    Race.start Scenario.after_A
      [("u2", Scenario.clock); ("u3", Scenario.later)] in
  let first_saved mode :=
    Race.schedule mode Scenario.users "r1" [0; 1; 0]%nat start in
  let both_saved mode :=
    Race.schedule mode Scenario.users "r1" [0; 1; 0; 1]%nat start in
  single_acceptor Scenario.after_A
  ∧ (∀ mode,
       (map a_user <$> (accepters <$> Race.stored (first_saved mode) !! "r1"))
       = Some ["u2"])
  ∧ (∀ mode, Race.succeeded <$> Race.responses (both_saved mode) !! 1%nat
             = Some true)
  ∧ (accepters <$> Race.stored (both_saved Race.send_changes) !! "r1")
    = Some [Volunteer.acceptance "u2" Scenario.clock;
            Volunteer.acceptance "u3" Scenario.later]
  ∧ ¬ single_acceptor (Race.stored (both_saved Race.send_changes)).
Proof.
  cbn zeta. split; [|split; [|split; [|split]]].
  - unfold single_acceptor.
    refine (proj1 (map_Forall_lookup
                     (fun _ r => type r = blood → (length (accepters r) ≤ 1)%nat)
                     Scenario.after_A) _).
    apply (bool_decide_unpack _). vm_compute. exact I.
  - intros []; vm_compute; reflexivity.
  - intros []; vm_compute; reflexivity.
  - vm_compute. reflexivity.
  - intros Hinv.
    destruct (Race.stored
                (Race.schedule Race.send_changes Scenario.users "r1"
                   [0; 1; 0; 1]%nat
                   (Race.start Scenario.after_A
                      [("u2", Scenario.clock); ("u3", Scenario.later)]))
              !! "r1") as [r|] eqn:Hr; [|vm_compute in Hr; discriminate].
    pose proof (Hinv "r1" r Hr) as Hlen.
    vm_compute in Hr. injection Hr as <-.
    specialize (Hlen eq_refl). cbn in Hlen. lia.
Qed.

(** C2 evaluated on the code: U2 and U3 volunteer for the pending request
    R1 of scenario A, and both reads happen before either save. Both are
    answered 200 and neither "already accepted". If the save sends the
    changes, R1 ends with two accepters; if it writes the document, R1
    ends with U3 alone and the acceptance U2 was told of is lost. Run one
    after the other, the same two calls give one success and one
    "already accepted". *)
Theorem two_volunteers_both_accepted :
  let race mode :=
    Race.schedule mode Scenario.users "r1" [0; 1; 0; 1]%nat
      (Race.start Scenario.after_A
         [("u2", Scenario.later); ("u3", Scenario.later)]) in
  let in_turn mode :=
    Race.schedule mode Scenario.users "r1" [0; 0; 1; 1]%nat
      (Race.start Scenario.after_A
         [("u2", Scenario.later); ("u3", Scenario.later)]) in
  (∀ mode, map Race.succeeded (Race.responses (race mode)) = [true; true])
  ∧ (∀ mode, Some Volunteer.already_accepted ∉ Race.responses (race mode))
  ∧ (map a_user <$> (accepters <$> Race.stored (race Race.send_changes) !! "r1"))
      = Some ["u2"; "u3"]
  ∧ (map a_user <$> (accepters <$> Race.stored (race Race.replace_document) !! "r1"))
      = Some ["u3"]
  ∧ (∀ mode, map Race.succeeded (Race.responses (in_turn mode)) = [true; false])
  ∧ (∀ mode, Race.responses (in_turn mode) !! 1%nat
             = Some (Some Volunteer.already_accepted)).
Proof.
  simpl. repeat split; try (intros []; vm_compute; reflexivity);
    try (vm_compute; reflexivity).
  intros [] H; vm_compute in H;
    repeat (apply elem_of_cons in H as [H|H]; [discriminate H|]);
    by apply elem_of_nil in H.
Qed.

(** ** Create *)

Lemma put_lookup_ne k k' v (data : gmap string Json) :
  k ≠ k' → Create.put k v data !! k' = data !! k'.
Proof. intros Hne. destruct v; simpl; [by rewrite lookup_insert_ne|done]. Qed.

Lemma requestData_phone t body number :
  Create.requestData t body number !! "phone" = Some number.
Proof.
  unfold Create.requestData.
  destruct t; rewrite !put_lookup_ne by done; simpl; apply lookup_insert_eq.
Qed.

(** C9: for a caller with a profile whose payload passed validation, the
    create operation answers PHONE_REQUIRED exactly when neither the
    payload nor the profile has a phone number, and then stores nothing;
    otherwise it stores a new request, pending and without accepters,
    whose phone is the payload's when it has one and the profile's when
    not. *)
Theorem create_phone_required
    (users : Users) (requests : Requests) (userId newId : Id)
    (body : gmap string Json) (clock : Clock) (profile : User)
    (t : RequestType) :
  users !! userId = Some profile →
  Create.body_type body = Some t →
  let out := Create.post_request users requests userId [] body newId clock in
  (out.1 = Create.phone_required
   ↔ truthy (body !! "phone") = false ∧ phone profile = "")
  ∧ (out.1 = Create.phone_required → out.2 = requests)
  ∧ (out.1 ≠ Create.phone_required →
     ∃ r, out.2 = <[newId := r]> requests
          ∧ code out.1 = 201%nat
          ∧ type r = t ∧ user r = userId
          ∧ status r = pending ∧ accepters r = []
          ∧ paths r !! "phone"
            = if truthy (body !! "phone") then body !! "phone"
              else Some (JStr (phone profile))).
Proof.
  intros Hprofile Htype. unfold Create.post_request, Create.phoneNumber.
  rewrite Hprofile, Htype. cbn -[truthy].
  destruct (truthy (body !! "phone")) eqn:Hbody.
  - destruct (body !! "phone") as [v|] eqn:Hv; [|done]. cbn -[truthy].
    rewrite Hbody. cbn -[truthy]. split; [|split].
    + split; [discriminate|]. by intros [? _].
    + discriminate.
    + intros _. eexists. repeat split. apply requestData_phone.
  - simpl. destruct (phone profile) as [|c rest] eqn:Hphone; simpl.
    + split; [|split]; [done|done|]. by intros [].
    + split; [|split].
      * split; [discriminate|]. by intros [_ ?].
      * discriminate.
      * intros _. eexists. repeat split. apply requestData_phone.
Qed.

Lemma create_phone_required_witness :
  (Create.post_request Scenario.users ∅ "u4" [] Scenario.body_R1 "r2"
     Scenario.clock).1 = Create.phone_required.
Proof.
  apply (create_phone_required Scenario.users ∅ "u4" "r2" Scenario.body_R1
           Scenario.clock Scenario.dev blood); [reflexivity | reflexivity |].
  split; reflexivity.
Defined.

(** Without a profile and without a phone in the payload, reading
    [user.phone] throws and the caller gets the 500 response. *)
Lemma create_without_profile users requests userId errors body newId clock :
  errors = [] → users !! userId = None → truthy (body !! "phone") = false →
  Create.post_request users requests userId errors body newId clock
  = (Create.server_error, requests).
Proof.
  intros -> Hnone Hfalsy. unfold Create.post_request, Create.phoneNumber.
  by rewrite Hfalsy, Hnone.
Qed.

(** ** Update *)

Lemma collect_lookup fields body updates k :
  Update.collect fields body updates !! k
  = if bool_decide (k ∈ fields)
    then match body !! k with
         | Some v => Some v
         | None => updates !! k
         end
    else updates !! k.
Proof.
  unfold Update.collect. revert updates.
  induction fields as [|f fields IH]; intros updates; simpl; [done|].
  rewrite IH. destruct (decide (k = f)) as [->|Hne].
  - rewrite (bool_decide_eq_true_2 (f ∈ f :: fields)) by left.
    destruct (body !! f) eqn:Hf; [rewrite lookup_insert_eq|];
      by destruct (bool_decide _).
  - assert (updates' : (match body !! f with
                        | Some v => <[f:=v]> updates
                        | None => updates
                        end) !! k = updates !! k).
    { destruct (body !! f); [by rewrite lookup_insert_ne|done]. }
    rewrite updates'.
    destruct (decide (k ∈ fields)) as [Hin|Hout].
    + rewrite (bool_decide_eq_true_2 _ Hin).
      by rewrite (bool_decide_eq_true_2 (k ∈ f :: fields)) by by right.
    + rewrite (bool_decide_eq_false_2 _ Hout).
      rewrite (bool_decide_eq_false_2 (k ∈ f :: fields)); [done|].
      by intros [?|?]%elem_of_cons.
Qed.

Lemma updates_lookup t body k :
  Update.updates_of t body !! k
  = if bool_decide (k ∈ (Update.allowedUpdates
                          ++ Update.typeSpecificUpdates t)%list)
    then body !! k else None.
Proof.
  unfold Update.updates_of. rewrite !collect_lookup, lookup_empty.
  destruct (decide (k ∈ Update.allowedUpdates)) as [Ha|Ha],
    (decide (k ∈ Update.typeSpecificUpdates t)) as [Ht|Ht].
  all: rewrite ?(bool_decide_eq_true_2 _ Ha), ?(bool_decide_eq_false_2 _ Ha),
         ?(bool_decide_eq_true_2 _ Ht), ?(bool_decide_eq_false_2 _ Ht).
  all: [> rewrite (bool_decide_eq_true_2 (k ∈ (_ ++ _)%list))
            by (apply elem_of_app; by left)
        | rewrite (bool_decide_eq_true_2 (k ∈ (_ ++ _)%list))
            by (apply elem_of_app; by left)
        | rewrite (bool_decide_eq_true_2 (k ∈ (_ ++ _)%list))
            by (apply elem_of_app; by right)
        | rewrite (bool_decide_eq_false_2 (k ∈ (_ ++ _)%list))
            by (by intros [?|?]%elem_of_app) ].
  all: by destruct (body !! k).
Qed.

(** The paths after [Object.assign]: [name], [location] and the paths of
    the type's list take the value sent, and [contactInfo] does when the
    schema declares it. *)
Lemma assign_lookup declared request t body k :
  paths (Update.assign declared request (Update.updates_of t body)) !! k
  = if bool_decide (k ∈ (["name"; "location"]
                          ++ Update.typeSpecificUpdates t)%list)
       || (declared && bool_decide (k = "contactInfo"))
    then match body !! k with
         | Some v => Some v
         | None => paths request !! k
         end
    else paths request !! k.
Proof.
  unfold Update.assign, Update.assignable, with_paths. cbn [paths].
  rewrite lookup_union.
  destruct (decide (k = "contactInfo")) as [->|Hne].
  - rewrite (bool_decide_eq_true_2 ("contactInfo" = "contactInfo")) by done.
    rewrite (bool_decide_eq_false_2
               ("contactInfo" ∈ (["name"; "location"]
                                 ++ Update.typeSpecificUpdates t)%list)).
    2:{ destruct t; apply (bool_decide_unpack _); vm_compute; exact I. }
    destruct declared; cbn [orb andb].
    + rewrite updates_lookup.
      rewrite (bool_decide_eq_true_2
                 ("contactInfo" ∈ (Update.allowedUpdates
                                   ++ Update.typeSpecificUpdates t)%list)).
      2:{ apply elem_of_app. left. unfold Update.allowedUpdates.
          rewrite !elem_of_cons. auto. }
      by destruct (body !! "contactInfo"), (paths request !! "contactInfo").
    + rewrite lookup_delete_eq. by destruct (paths request !! "contactInfo").
  - rewrite (bool_decide_eq_false_2 (k = "contactInfo") Hne).
    rewrite andb_false_r, orb_false_r.
    assert (Update.assignable declared (Update.updates_of t body) !! k
            = Update.updates_of t body !! k) as Hk.
    { unfold Update.assignable. destruct declared; [done|].
      by rewrite lookup_delete_ne. }
    unfold Update.assignable in Hk. rewrite Hk, updates_lookup.
    rewrite (bool_decide_ext
               (k ∈ (Update.allowedUpdates ++ Update.typeSpecificUpdates t)%list)
               (k ∈ (["name"; "location"]
                     ++ Update.typeSpecificUpdates t)%list)).
    2:{ unfold Update.allowedUpdates.
        rewrite !elem_of_app, !elem_of_cons, !elem_of_nil. tauto. }
    destruct (bool_decide _); [|by destruct (paths request !! k)].
    by destruct (body !! k), (paths request !! k).
Qed.

(** C8, as the code has it: called by the owner on a pending request, the
    update succeeds whatever the input contains, and changes only paths
    on the handler's lists and [updatedAt]. The lists are [name] and
    [location], the list of the request's type, and [contactInfo], which
    is stored where the schema declares it. A path on the lists takes the
    value sent for it, if one was sent; every other path and the type,
    owner, status, accepters and creation time are as before. [updatedAt]
    is as before or the store's time of the save, and it is the store's
    time whenever a path has changed. *)
Theorem update_frame
    (users : Users) (requests : Requests) (id userId : Id)
    (body : gmap string Json) (clock : Clock) (declared : bool)
    (request : Request) :
  requests !! id = Some request →
  user request = userId →
  status request = pending →
  let out :=
    Update.put_request users requests id userId body clock declared in
  code out.1 = 200%nat
  ∧ ∃ r', out.2 = <[id := r']> requests
      ∧ type r' = type request ∧ user r' = user request
      ∧ status r' = status request ∧ accepters r' = accepters request
      ∧ createdAt r' = createdAt request
      ∧ (∀ k, paths r' !! k
              = if bool_decide
                     (k ∈ (["name"; "location"]
                           ++ Update.typeSpecificUpdates (type request))%list)
                   || (declared && bool_decide (k = "contactInfo"))
                then match body !! k with
                     | Some v => Some v
                     | None => paths request !! k
                     end
                else paths request !! k)
      ∧ (updatedAt r' = updatedAt request ∨ updatedAt r' = clock 0%nat)
      ∧ (paths r' ≠ paths request → updatedAt r' = clock 0%nat).
Proof.
  intros Hfound Howner Hpending. unfold Update.put_request.
  rewrite Hfound, (bool_decide_eq_true_2 _ Howner),
    (bool_decide_eq_true_2 _ Hpending).
  cbn [negb fst snd]. split; [done|].
  eexists. split; [reflexivity|].
  destruct (save_frame request
              (Update.assign declared request
                 (Update.updates_of (type request) body))
              (Update.saved_at clock)) as (Ht & Hu & Hs & Ha & Hc & Hp).
  split; [by rewrite Ht|]. split; [by rewrite Hu|].
  split; [by rewrite Hs|]. split; [by rewrite Ha|].
  split; [by rewrite Hc|].
  split; [intros k; rewrite Hp; apply assign_lookup|].
  rewrite Hp. unfold Update.save.
  destruct (decide (paths (Update.assign declared request
                             (Update.updates_of (type request) body))
                    = paths request)) as [Heq|Hne].
  - split; [by left | by intros []].
  - split; [by right | done].
Qed.

Lemma update_frame_witness :
  code (Update.put_request Scenario.users Scenario.after_A "r1" "u1"
          (<["bloodType" := JStr "A-"]> (<["status" := JStr "accepted"]> ∅))
          Scenario.later true).1
  = 200%nat.
Proof.
  refine (proj1 (update_frame Scenario.users Scenario.after_A "r1" "u1"
                   (<["bloodType" := JStr "A-"]>
                      (<["status" := JStr "accepted"]> ∅))
                   Scenario.later true
                   (Create.new_Request blood "u1"
                      (Create.requestData blood Scenario.body_R1
                         (JStr "9000000001")) 1000) _ _ _)).
  - vm_compute. reflexivity.
  - reflexivity.
  - reflexivity.
Defined.

(** C8, as stated, fails: [updatedAt] is neither [name] nor [location]
    nor on the list of a blood request, and when the owner of the pending
    request R1 sends a new name the stored [updatedAt] moves from the
    time of creation to the time of the save, whether or not the schema
    declares [contactInfo]. *)
Lemma update_frame_counterexample :
  let body : gmap string Json := <["name" := JStr "Asha Kumar"]> ∅ in
  let before := Scenario.after_A in
  let after declared :=
    (Update.put_request Scenario.users before "r1" "u1" body
       Scenario.later declared).2 in
  (type <$> before !! "r1") = Some blood
  ∧ (user <$> before !! "r1") = Some "u1"
  ∧ (status <$> before !! "r1") = Some pending
  ∧ (updatedAt <$> before !! "r1") = Some 1000
  ∧ ∀ declared,
      code (Update.put_request Scenario.users before "r1" "u1" body
              Scenario.later declared).1 = 200%nat
      ∧ (updatedAt <$> after declared !! "r1") = Some 2000.
Proof.
  cbn zeta. split; [|split; [|split; [|split]]]; try (vm_compute; reflexivity).
  intros []; split; vm_compute; reflexivity.
Qed.

(** ** Queries and listings *)

Lemma window_elem_of {A} (skip limit : Z) (l : list A) (x : A) :
  x ∈ Store.window skip limit l → x ∈ l.
Proof.
  unfold Store.window. destruct (limit =? 0).
  - apply subseteq_drop.
  - intros H%subseteq_take. by apply subseteq_drop in H.
Qed.

(** What [find] returns is in the collection and satisfies the query. *)
Lemma find_elem_of matches s skip limit (requests : Requests) found doc :
  Store.find matches s skip limit requests = Some found →
  doc ∈ found →
  requests !! doc.1 = Some doc.2 ∧ matches doc = true.
Proof.
  unfold Store.find. destruct (skip <? 0); [done|].
  intros [= <-] Hin%window_elem_of.
  rewrite merge_sort_Permutation in Hin.
  apply list_elem_of_In, filter_In in Hin as [Hin Hm].
  apply list_elem_of_In in Hin. destruct doc as [i r].
  by apply elem_of_map_to_list in Hin.
Qed.

(** An element of a mapped list is the image of an element. *)
Lemma mapM_elem_of {A B} (f : A → option B) l k y :
  mapM f l = Some k → y ∈ k → ∃ x, x ∈ l ∧ f x = Some y.
Proof.
  intros HF%mapM_Some_1 [i Hi]%list_elem_of_lookup_1.
  destruct (Forall2_lookup_r _ _ _ _ _ HF Hi) as (x & Hx & Hfx).
  exists x. split; [by eapply list_elem_of_lookup_2|done].
Qed.

Lemma some_accepter_known users userId l :
  Forall (fun a => is_Some (users !! a_user a)) l →
  some_accepter users userId l = Some (bool_decide (userId ∈ map a_user l)).
Proof.
  induction 1 as [|a l [u Hu] _ IH]; cbn [some_accepter map].
  - rewrite bool_decide_eq_false_2; [done|]. apply not_elem_of_nil.
  - rewrite Hu. destruct (decide (a_user a = userId)) as [Ha|Ha].
    + rewrite (bool_decide_eq_true_2 _ Ha).
      rewrite (bool_decide_eq_true_2 (userId ∈ _ :: _)); [done|].
      rewrite Ha. left.
    + rewrite (bool_decide_eq_false_2 _ Ha), IH. f_equal.
      apply bool_decide_ext. rewrite elem_of_cons.
      split; [by right | intros [?|?]; [congruence|done]].
Qed.

Lemma assoc_elem_of k v (l : list (string * Json)) :
  NoDup l.*1 → (k, v) ∈ l → assoc k l = Some v.
Proof.
  induction l as [|[k' v'] l IH]; simpl.
  - by intros _ ?%elem_of_nil.
  - intros [Hnotin Hnodup]%NoDup_cons [[= <- <-]|Hin]%elem_of_cons.
    + by rewrite String.eqb_refl.
    + destruct (String.eqb_spec k k') as [->|_]; [|by apply IH].
      exfalso. apply Hnotin. apply list_elem_of_fmap. by exists (k', v).
Qed.

Lemma assoc_notin k (l : list (string * Json)) :
  k ∉ l.*1 → assoc k l = None.
Proof.
  induction l as [|[k' v'] l IH]; simpl; [done|].
  intros Hnotin. destruct (String.eqb_spec k k') as [->|_].
  - exfalso. apply Hnotin. left.
  - apply IH. intros ?. apply Hnotin. by right.
Qed.

(** Reading a path from the serialised paths of a document. *)
Lemma assoc_map_to_list k (m : gmap string Json) :
  assoc k (map_to_list m) = m !! k.
Proof.
  destruct (m !! k) as [v|] eqn:Hk.
  - apply assoc_elem_of; [apply NoDup_fst_map_to_list|].
    by apply elem_of_map_to_list.
  - apply assoc_notin. intros [[k' v] [-> Hin]]%list_elem_of_fmap.
    apply elem_of_map_to_list in Hin. simpl in Hk. congruence.
Qed.

Lemma document_phone id r user_json accepters_json :
  get "phone" (document id r user_json accepters_json) = paths r !! "phone".
Proof. unfold document. simpl. apply assoc_map_to_list. Qed.

Lemma document_id id r user_json accepters_json :
  get "_id" (document id r user_json accepters_json) = Some (JStr id).
Proof. reflexivity. Qed.




(** ** The contacts of a matched request *)

Lemma contacts_body_paths id request isRequester owner donor_json :
  let b := Contacts.contacts_body id request isRequester owner donor_json in
  path ["request"; "requester"] b
    = Some (JObj [("name", JStr (name owner)); ("phone", JStr (phone owner));
                  ("email", JStr (email owner))])
  ∧ path ["request"; "donor"] b = Some donor_json.
Proof.
  unfold Contacts.contacts_body, Contacts.match_view. simpl.
  destruct (paths request !! "bloodType"), (paths request !! "urgencyLevel"),
    (paths request !! "location"), (head (accepters request));
    simpl; split; reflexivity.
Qed.

(** C5: the contacts read of an existing request answers, in this order:
    "only for blood requests" when the request is not a blood request;
    then, the owner and the accepters having profiles, "access denied"
    when the viewer is neither the owner nor an accepter; then "only for
    accepted requests" when the status is not accepted; and otherwise
    200 with a [requester] carrying the owner's name, phone and email and
    a [donor] carrying those of the first accepter. *)
Theorem contacts_checks
    (users : Users) (requests : Requests) (id userId : Id)
    (request : Request) :
  requests !! id = Some request →
  let response := Contacts.get_contacts users requests id userId in
  (type request ≠ blood → response = Contacts.wrong_type)
  ∧ (type request = blood →
     ∀ owner, users !! user request = Some owner →
     Forall (fun a => is_Some (users !! a_user a)) (accepters request) →
     (user request ≠ userId → userId ∉ map a_user (accepters request) →
      response = Contacts.access_denied)
     ∧ (user request = userId ∨ userId ∈ map a_user (accepters request) →
        (status request ≠ accepted → response = Contacts.not_accepted)
        ∧ (status request = accepted → accepters request ≠ [] →
           ∃ a donor,
             head (accepters request) = Some a
             ∧ users !! a_user a = Some donor
             ∧ code response = 200%nat
             ∧ path ["request"; "requester"] (body response)
               = Some (JObj [("name", JStr (name owner));
                             ("phone", JStr (phone owner));
                             ("email", JStr (email owner))])
             ∧ path ["request"; "donor"] (body response)
               = Some (JObj [("name", JStr (name donor));
                             ("phone", JStr (phone donor));
                             ("email", JStr (email donor));
                             ("acceptedAt", JDate (acceptedAt a))])))).
Proof.
  intros Hfound. unfold Contacts.get_contacts. rewrite Hfound. cbn zeta.
  split.
  - intros Htype. by rewrite (bool_decide_eq_false_2 _ Htype).
  - intros Htype owner Howner Hall.
    rewrite (bool_decide_eq_true_2 _ Htype), Howner,
      (some_accepter_known _ _ _ Hall).
    cbn [negb]. split.
    + intros Hne Hnotin.
      by rewrite (bool_decide_eq_false_2 _ Hne), (bool_decide_eq_false_2 _ Hnotin).
    + intros Hallowed.
      assert (negb (bool_decide (user request = userId))
              && negb (bool_decide (userId ∈ map a_user (accepters request)))
              = false) as ->.
      { destruct Hallowed as [H|H]; rewrite (bool_decide_eq_true_2 _ H);
          [done|apply andb_false_r]. }
      split.
      * intros Hstatus. by rewrite (bool_decide_eq_false_2 _ Hstatus).
      * intros Hstatus Hsome.
        destruct (accepters request) as [|a rest] eqn:Hacc; [done|].
        apply Forall_cons in Hall as [[donor Hdonor] _].
        exists a, donor. split; [done|]. split; [done|].
        rewrite (bool_decide_eq_true_2 _ Hstatus). cbn [negb head].
        unfold Contacts.donor. rewrite Hdonor.
        split; [done|].
        pose proof (contacts_body_paths id request
                      (bool_decide (user request = userId)) owner
                      (object (contact_of donor
                               ++ [("acceptedAt", Some (JDate (acceptedAt a)))])))
          as Hpaths.
        exact Hpaths.
Qed.

Lemma contacts_checks_witness :
  ∃ a donor,
    head (accepters Scenario.R1_accepted) = Some a
    ∧ Scenario.users !! a_user a = Some donor
    ∧ code (Contacts.get_contacts Scenario.users Scenario.after_B "r1" "u2")
      = 200%nat
    ∧ path ["request"; "requester"]
        (body (Contacts.get_contacts Scenario.users Scenario.after_B "r1" "u2"))
      = Some (JObj [("name", JStr "Asha"); ("phone", JStr "9000000001");
                    ("email", JStr "asha@example.org")])
    ∧ path ["request"; "donor"]
        (body (Contacts.get_contacts Scenario.users Scenario.after_B "r1" "u2"))
      = Some (JObj [("name", JStr (name donor)); ("phone", JStr (phone donor));
                    ("email", JStr (email donor));
                    ("acceptedAt", JDate (acceptedAt a))]).
Proof.
  pose proof (contacts_checks Scenario.users Scenario.after_B "r1" "u2"
                Scenario.R1_accepted) as H.
  destruct H as [_ H]; [vm_compute; reflexivity|].
  destruct (H eq_refl Scenario.asha) as [_ H']; [reflexivity| |].
  - repeat constructor. by exists Scenario.ben.
  - destruct H' as [_ H']; [right; left|].
    apply H'; [reflexivity | discriminate].
Defined.

(** ** Who sees a pending blood request *)

(** The listing holds only requests of the caller, each as stored. *)
Lemma listing_item_owned users (requests : Requests) viewer q item :
  item ∈ listed (Listing.get_requests users requests viewer q) →
  ∃ id request,
    requests !! id = Some request ∧ user request = viewer
    ∧ item = document id request (JStr (user request))
               (Listing.populated_accepters users request).
Proof.
  unfold Listing.get_requests.
  destruct (Store.find _ _ _ _ _) as [found|] eqn:Hfind;
    [|by intros ?%elem_of_nil].
  destruct (mapM _ found) as [items|] eqn:Hitems;
    [|by intros ?%elem_of_nil].
  unfold listed. simpl. intros Hin.
  destruct (mapM_elem_of _ _ _ _ Hitems Hin) as ([id request] & Hdoc & Hitem).
  destruct (find_elem_of _ _ _ _ _ _ _ Hfind Hdoc) as [Hstored Hquery].
  unfold Listing.query in Hquery. cbn [fst snd] in *.
  apply andb_prop in Hquery as [Hquery _].
  apply andb_prop in Hquery as [Howner%bool_decide_eq_true _].
  exists id, request. split; [done|]. split; [done|].
  unfold Listing.filtered in Hitem. cbn [fst snd] in Hitem.
  rewrite (bool_decide_eq_true_2 _ Howner) in Hitem.
  destruct (some_accepter users viewer (accepters request)); [|done].
  simpl in Hitem. by injection Hitem as <-.
Qed.

(** C7, as the code has it, for a pending blood request without accepters.
    An item with its id in anyone's listing means the caller is the owner,
    and the item is the stored document with its phone as stored: the
    listing shows callers their own requests only. The single read of a
    caller with a profile is refused when the caller is a citizen and not
    the owner; for the owner and for a caller of another role it returns
    the stored document, its phone and the owner's populated contact as
    stored. *)
Theorem pending_request_visibility
    (users : Users) (requests : Requests) (id viewer : Id)
    (request : Request) :
  requests !! id = Some request →
  type request = blood → status request = pending → accepters request = [] →
  (∀ q item,
     item ∈ listed (Listing.get_requests users requests viewer q) →
     get "_id" item = Some (JStr id) →
     viewer = user request
     ∧ item = document id request (JStr (user request)) []
     ∧ get "phone" item = paths request !! "phone")
  ∧ (∀ profile owner,
       users !! viewer = Some profile →
       users !! user request = Some owner →
       let response := Get.get_request users requests id viewer in
       (viewer ≠ user request → role profile = citizen →
        response = Get.access_denied)
       ∧ (viewer = user request ∨ role profile ≠ citizen →
          response = Get.retrieved (document_with_user users id request)
          ∧ path ["request"; "phone"] (body response) = paths request !! "phone"
          ∧ path ["request"; "user"] (body response)
            = Some (JObj [("_id", JStr (user request));
                          ("name", JStr (name owner));
                          ("phone", JStr (phone owner));
                          ("email", JStr (email owner))]))).
Proof.
  intros Hfound _ _ Hnone. split.
  - intros q item Hin Hid.
    destruct (listing_item_owned _ _ _ _ _ Hin)
      as (id' & request' & Hfound' & Howner & ->).
    rewrite document_id in Hid. injection Hid as ->.
    rewrite Hfound in Hfound'. injection Hfound' as <-.
    unfold Listing.populated_accepters. rewrite Hnone. simpl map.
    split; [done|]. split; [done|]. apply document_phone.
  - intros profile owner Hprofile Howner. cbn zeta.
    unfold Get.get_request, Get.denied. rewrite Hfound, Hprofile, Howner.
    split.
    + intros Hne Hcitizen.
      rewrite (bool_decide_eq_true_2 _ Hcitizen).
      by rewrite bool_decide_eq_false_2 by congruence.
    + intros Hallowed.
      assert ((if bool_decide (role profile = citizen)
               then Some (negb (bool_decide (user request = viewer)))
               else Some false) = Some false) as ->.
      { destruct Hallowed as [->|Hrole].
        - rewrite (bool_decide_eq_true_2 (user request = user request)) by done.
          by destruct (bool_decide _).
        - by rewrite (bool_decide_eq_false_2 _ Hrole). }
      split; [done|]. unfold Get.retrieved, document_with_user, populated.
      rewrite Howner. split.
      * cbn [path body json get assoc String.eqb Ascii.eqb Bool.eqb].
        rewrite document_phone. by destruct (paths request !! "phone").
      * reflexivity.
Qed.

(** In scenario A the owner's listing is R1 as stored. *)
Example owner_lists_R1 :
  listed (Listing.get_requests Scenario.users Scenario.after_A "u1"
            Scenario.all)
  = [document "r1" Scenario.R1 (JStr "u1") []].
Proof. vm_compute. reflexivity. Qed.

Lemma pending_request_visibility_witness :
  Get.get_request Scenario.users Scenario.after_A "r1" "u4" = Get.access_denied.
Proof.
  pose proof (pending_request_visibility Scenario.users Scenario.after_A
                "r1" "u4" Scenario.R1) as H.
  destruct H as [_ H]; [vm_compute; reflexivity | reflexivity | reflexivity
                       | reflexivity |].
  destruct (H Scenario.dev Scenario.asha) as [H' _];
    [reflexivity | reflexivity |].
  apply H'; [discriminate | reflexivity].
Defined.

(** C7, as stated, fails for viewers other than the owner. R1 of scenario
    A is a pending blood request without accepters, owned by U1. U2's
    listing does not contain it; U4, a citizen, is refused the single
    read; U2, a volunteer, reads it with the phone and the owner's
    contact as stored, not the sentinel. *)
Lemma pending_request_visibility_counterexample :
  Scenario.after_A !! "r1" = Some Scenario.R1
  ∧ type Scenario.R1 = blood ∧ status Scenario.R1 = pending
  ∧ accepters Scenario.R1 = [] ∧ user Scenario.R1 = "u1"
  ∧ listed (Listing.get_requests Scenario.users Scenario.after_A "u2"
              Scenario.all) = []
  ∧ Get.get_request Scenario.users Scenario.after_A "r1" "u4"
    = Get.access_denied
  ∧ path ["request"; "phone"]
      (body (Get.get_request Scenario.users Scenario.after_A "r1" "u2"))
    = Some (JStr "9000000001")
  ∧ path ["request"; "user"; "phone"]
      (body (Get.get_request Scenario.users Scenario.after_A "r1" "u2"))
    = Some (JStr "9000000001").
Proof. vm_compute. repeat split; reflexivity. Qed.

(** * Further properties of the routes *)

(** ** After a match *)

(** X1: once a volunteer call has succeeded on a request, no later
    volunteer call on it succeeds or changes anything, whoever calls and
    whenever; a caller with a profile who is not the owner, the first
    donor included, is told that the request has already been accepted. *)
Theorem matched_request_closed
    (users : Users) (requests requests' : Requests) (id donor : Id)
    (clock : Clock) (response : Response) :
  Volunteer.post_volunteer users requests id donor clock
    = (response, requests') →
  code response = 200%nat →
  ∀ (caller : Id) (later : Clock),
    code (Volunteer.post_volunteer users requests' id caller later).1
      ≠ 200%nat
    ∧ (Volunteer.post_volunteer users requests' id caller later).2 = requests'
    ∧ (is_Some (users !! caller) →
       (user <$> requests !! id) ≠ Some caller →
       (Volunteer.post_volunteer users requests' id caller later).1
       = Volunteer.already_accepted).
Proof.
  intros Hrun Hcode caller later.
  destruct (post_volunteer_200 _ _ _ _ _ _ _ Hrun Hcode)
    as (saved & owner & profile & Hdecide & -> & ->).
  destruct (decide_volunteer_accept _ _ _ _ _ _ _ _ Hdecide)
    as (request & Hfound & Hblood & Howner & _ & _ & Hnone & ->).
  unfold Volunteer.post_volunteer, Volunteer.decide_volunteer.
  rewrite lookup_insert_eq, Hfound.
  cbn [stamped with_acceptance type user accepters].
  rewrite (bool_decide_eq_true_2 _ Hblood), Howner, Hnone. cbn [negb].
  case_bool_decide as Hself.
  - repeat split; [done|]. intros _ Hne. exfalso. apply Hne.
    simpl. by rewrite Hself.
  - destruct (users !! caller) as [p|]; simpl.
    + repeat split; done.
    + repeat split; [done|]. by intros [? [=]].
Qed.

Lemma matched_request_closed_witness :
  (Volunteer.post_volunteer Scenario.users Scenario.after_B "r1" "u2"
     Scenario.clock).1 = Volunteer.already_accepted.
Proof.
  refine (proj2 (proj2 (matched_request_closed Scenario.users Scenario.after_A
                          Scenario.after_B "r1" "u2" Scenario.later
                          (Volunteer.post_volunteer Scenario.users
                             Scenario.after_A "r1" "u2" Scenario.later).1
                          _ _ "u2" Scenario.clock)) _ _).
  - reflexivity.
  - vm_compute. reflexivity.
  - vm_compute. eauto.
  - vm_compute. discriminate.
Defined.

(** The contacts read of a matched blood request, for its owner and for
    its donor. *)
Lemma get_contacts_granted users (requests : Requests) id viewer request
    owner a profile :
  requests !! id = Some request →
  type request = blood → status request = accepted →
  users !! user request = Some owner →
  accepters request = [a] → users !! a_user a = Some profile →
  viewer = user request ∨ viewer = a_user a →
  Contacts.get_contacts users requests id viewer
  = json (Contacts.contacts_body id request
            (bool_decide (user request = viewer)) owner
            (object (contact_of profile
                     ++ [("acceptedAt", Some (JDate (acceptedAt a)))]))).
Proof.
  intros Hfound Hblood Hstatus Howner Hacc Hprofile Hviewer.
  unfold Contacts.get_contacts.
  rewrite Hfound, (bool_decide_eq_true_2 _ Hblood), Howner,
    (bool_decide_eq_true_2 _ Hstatus), Hacc.
  cbn [negb some_accepter head]. rewrite Hprofile.
  unfold Contacts.donor. rewrite Hprofile.
  destruct Hviewer as [->| ->].
  - rewrite (bool_decide_eq_true_2 (user request = user request)) by done.
    cbn [negb andb]. by destruct (bool_decide (a_user a = user request)).
  - rewrite (bool_decide_eq_true_2 (a_user a = a_user a)) by done.
    by destruct (bool_decide (user request = a_user a)).
Qed.

(** X2: after a successful volunteer call the owner and the donor, and
    nobody else, can read the contacts. Both get the owner's name, phone
    and email as requester and the donor's as donor; the owner is told
    the role requester, the donor the role donor; any third viewer with
    a profile or without is refused. *)
Theorem contacts_after_match
    (users : Users) (requests requests' : Requests) (id donor : Id)
    (clock : Clock) (response : Response) :
  Volunteer.post_volunteer users requests id donor clock
    = (response, requests') →
  code response = 200%nat →
  ∃ request owner profile,
    requests !! id = Some request
    ∧ users !! user request = Some owner ∧ users !! donor = Some profile
    ∧ (∀ viewer, viewer = user request ∨ viewer = donor →
         let seen := Contacts.get_contacts users requests' id viewer in
         code seen = 200%nat
         ∧ path ["request"; "userRole"] (body seen)
           = Some (JStr (if bool_decide (viewer = user request)
                         then "requester" else "donor"))
         ∧ path ["request"; "requester"] (body seen)
           = Some (JObj [("name", JStr (name owner));
                         ("phone", JStr (phone owner));
                         ("email", JStr (email owner))])
         ∧ path ["request"; "donor"] (body seen)
           = Some (JObj [("name", JStr (name profile));
                         ("phone", JStr (phone profile));
                         ("email", JStr (email profile));
                         ("acceptedAt", JDate (clock 0%nat))]))
    ∧ (∀ viewer, viewer ≠ user request → viewer ≠ donor →
         Contacts.get_contacts users requests' id viewer
         = Contacts.access_denied).
Proof.
  intros Hrun Hcode.
  destruct (post_volunteer_200 _ _ _ _ _ _ _ Hrun Hcode)
    as (saved & owner & profile & Hdecide & -> & ->).
  destruct (decide_volunteer_accept _ _ _ _ _ _ _ _ Hdecide)
    as (request & Hfound & Hblood & Howner & Hself & Hprofile & Hnone & ->).
  exists request, owner, profile.
  split; [done|]. split; [done|]. split; [done|]. split.
  - intros viewer Hviewer. cbn zeta.
    rewrite (get_contacts_granted users _ id viewer
               (stamped
                  (with_acceptance request (Volunteer.acceptance donor clock))
                  (Volunteer.saved_at clock))
               owner (Volunteer.acceptance donor clock) profile);
      try done.
    + split; [done|].
      unfold Contacts.contacts_body, Contacts.match_view.
      cbn [stamped with_acceptance type user status accepters paths
           createdAt].
      rewrite Hnone. cbn [app head fmap option_fmap option_map].
      assert (bool_decide (user request = viewer)
              = bool_decide (viewer = user request)) as ->.
      { apply bool_decide_ext. split; congruence. }
      destruct (paths request !! "bloodType"),
        (paths request !! "urgencyLevel"), (paths request !! "location"),
        (bool_decide (viewer = user request)); repeat split; reflexivity.
    + apply lookup_insert_eq.
    + cbn [stamped with_acceptance accepters]. by rewrite Hnone.
  - intros viewer Hne1 Hne2. unfold Contacts.get_contacts.
    rewrite lookup_insert_eq.
    cbn [stamped with_acceptance type user status accepters].
    rewrite (bool_decide_eq_true_2 _ Hblood), Howner, Hnone.
    cbn [negb app some_accepter Volunteer.acceptance a_user].
    rewrite Hprofile.
    rewrite (bool_decide_eq_false_2 (user request = viewer)) by congruence.
    by rewrite (bool_decide_eq_false_2 (donor = viewer)) by congruence.
Qed.

Lemma contacts_after_match_witness :
  Contacts.get_contacts Scenario.users Scenario.after_B "r1" "u3"
  = Contacts.access_denied.
Proof.
  destruct (contacts_after_match Scenario.users Scenario.after_A
              Scenario.after_B "r1" "u2" Scenario.later
              (Volunteer.post_volunteer Scenario.users Scenario.after_A
                 "r1" "u2" Scenario.later).1)
    as (request & owner & profile & Hfound & _ & _ & _ & Hthird).
  - reflexivity.
  - vm_compute. reflexivity.
  - apply Hthird.
    + vm_compute in Hfound. injection Hfound as <-. discriminate.
    + discriminate.
Defined.

(** ** Update and delete *)

(** X3: an update succeeds exactly when the request exists, the caller
    owns it and it is pending; in every other case it answers its own
    refusal (not found, access denied, no longer pending, in this order)
    and leaves the collection as it was. *)
Theorem update_succeeds_iff
    (users : Users) (requests : Requests) (id userId : Id)
    (body : gmap string Json) (clock : Clock) (declared : bool) :
  let out :=
    Update.put_request users requests id userId body clock declared in
  (code out.1 = 200%nat
   ↔ ∃ request, requests !! id = Some request
                ∧ user request = userId ∧ status request = pending)
  ∧ (code out.1 ≠ 200%nat → out.2 = requests)
  ∧ (requests !! id = None → out.1 = Update.request_not_found)
  ∧ (∀ request, requests !! id = Some request →
       (user request ≠ userId → out.1 = Update.access_denied)
       ∧ (user request = userId → status request ≠ pending →
          out.1 = Update.not_pending)).
Proof.
  cbn zeta. unfold Update.put_request.
  destruct (requests !! id) as [request|] eqn:Hfound.
  - destruct (decide (user request = userId)) as [Howner|Howner].
    + rewrite (bool_decide_eq_true_2 _ Howner). cbn [negb].
      destruct (decide (status request = pending)) as [Hp|Hp].
      * rewrite (bool_decide_eq_true_2 _ Hp). cbn [negb fst snd].
        split; [|split; [|split]]; [|done|done|].
        -- split; [|done]. intros _. by exists request.
        -- intros ? [= <-]. split; done.
      * rewrite (bool_decide_eq_false_2 _ Hp). cbn [negb fst snd].
        split; [|split; [|split]]; [|done|done|].
        -- split; [discriminate|]. intros (r & [= <-] & _ & ?). done.
        -- intros ? [= <-]. split; done.
    + rewrite (bool_decide_eq_false_2 _ Howner). cbn [negb fst snd].
      split; [|split; [|split]]; [|done|done|].
      * split; [discriminate|]. intros (r & [= <-] & ? & _). done.
      * intros ? [= <-]. split; done.
  - cbn [fst snd]. split; [|split; [|split]]; [|done|done|done].
    split; [discriminate|]. by intros (r & [=] & _).
Qed.

(** X4: an update is idempotent but for the time stamp. Sending the same
    body a second time gives a response with the same code, and every
    stored request is as the first call left it, with the same type,
    owner, status, accepters, creation time and paths; only its
    [updatedAt] is left to the store. *)
Theorem update_idempotent
    (users : Users) (requests : Requests) (id userId : Id)
    (body : gmap string Json) (clock clock' : Clock) (declared : bool) :
  let first :=
    Update.put_request users requests id userId body clock declared in
  let second :=
    Update.put_request users first.2 id userId body clock' declared in
  code second.1 = code first.1
  ∧ ∀ id', option_Forall2 same_but_updatedAt
             (second.2 !! id') (first.2 !! id').
Proof.
  assert (∀ (m : Requests) id', option_Forall2 same_but_updatedAt
                                  (m !! id') (m !! id')) as Hrefl.
  { intros m id'. destruct (m !! id'); constructor. by repeat split. }
  cbn zeta. unfold Update.put_request.
  destruct (requests !! id) as [request|] eqn:Hfound; cbn [fst snd].
  2:{ rewrite Hfound. split; [done|]. apply Hrefl. }
  destruct (bool_decide (user request = userId)) eqn:Howner; cbn [negb fst snd].
  2:{ rewrite Hfound, Howner. split; [done|]. apply Hrefl. }
  destruct (bool_decide (status request = pending)) eqn:Hp; cbn [negb fst snd].
  2:{ rewrite Hfound, Howner, Hp. split; [done|]. apply Hrefl. }
  set (updates := Update.updates_of (type request) body).
  set (r1 := Update.save request (Update.assign declared request updates)
               (Update.saved_at clock)).
  destruct (save_frame request (Update.assign declared request updates)
              (Update.saved_at clock)) as (Ht & Hu & Hs & Ha & Hc & Hpaths).
  fold r1 in Ht, Hu, Hs, Ha, Hc, Hpaths.
  cbn [Update.assign with_paths type user status accepters createdAt paths]
    in Ht, Hu, Hs, Ha, Hc, Hpaths.
  rewrite lookup_insert_eq, Hu, Hs, Howner, Hp, Ht. cbn [negb fst snd].
  fold updates. split; [done|].
  intros id'. destruct (decide (id = id')) as [<-|Hne].
  - rewrite !lookup_insert_eq. constructor.
    destruct (save_frame r1 (Update.assign declared r1 updates)
                (Update.saved_at clock')) as (Ht' & Hu' & Hs' & Ha' & Hc' & Hp').
    cbn [Update.assign with_paths type user status accepters createdAt paths]
      in Ht', Hu', Hs', Ha', Hc', Hp'.
    split; [done|]. split; [done|]. split; [done|]. split; [done|].
    split; [done|].
    rewrite Hp', Hpaths. apply map_eq. intros k. rewrite !lookup_union.
    by destruct (Update.assignable declared updates !! k),
      (paths request !! k).
  - rewrite !lookup_insert_ne by done. apply Hrefl.
Qed.

(** The second update of R1 with the same blood type changes nothing
    but, at most, the time stamp. *)
Lemma update_idempotent_example :
  let body : gmap string Json := <["bloodType" := JStr "A-"]> ∅ in
  let first :=
    Update.put_request Scenario.users Scenario.after_A "r1" "u1" body
      Scenario.clock true in
  let second :=
    Update.put_request Scenario.users first.2 "r1" "u1" body
      Scenario.later true in
  code second.1 = 200%nat
  ∧ ((fun r => paths r !! "bloodType") <$> second.2 !! "r1")
    = Some (Some (JStr "A-")).
Proof. vm_compute. split; reflexivity. Qed.

(** X5: the owner can delete a request whatever its status. The request
    and its accepters are gone, every other request is untouched, and
    every later operation on the id answers its own "not found". A
    caller who is not the owner is refused and nothing changes. *)
Theorem delete_effect
    (users : Users) (requests : Requests) (id userId : Id)
    (request : Request) :
  requests !! id = Some request →
  let out := Delete.delete_request requests id userId in
  (user request ≠ userId → out = (Delete.access_denied, requests))
  ∧ (user request = userId →
     out.1 = Delete.deleted
     ∧ out.2 !! id = None
     ∧ (∀ other, other ≠ id → out.2 !! other = requests !! other)
     ∧ ∀ (viewer : Id) (clock : Clock) (body : gmap string Json),
         Get.get_request users out.2 id viewer = Get.request_not_found
         ∧ Contacts.get_contacts users out.2 id viewer
           = Contacts.request_not_found
         ∧ Accepters.get_accepters users out.2 id viewer
           = Accepters.request_not_found
         ∧ Volunteer.post_volunteer users out.2 id viewer clock
           = (Volunteer.request_not_found, out.2)
         ∧ (∀ declared,
              Update.put_request users out.2 id viewer body clock declared
              = (Update.request_not_found, out.2))
         ∧ Delete.delete_request out.2 id viewer
           = (Delete.request_not_found, out.2)).
Proof.
  intros Hfound. cbn zeta. unfold Delete.delete_request. rewrite Hfound.
  split.
  - intros Hne. by rewrite (bool_decide_eq_false_2 _ Hne).
  - intros Howner. rewrite (bool_decide_eq_true_2 _ Howner).
    cbn [negb fst snd].
    split; [done|]. split; [apply lookup_delete_eq|].
    split; [intros other Hne; by apply lookup_delete_ne|].
    intros viewer clock body.
    unfold Get.get_request, Contacts.get_contacts, Accepters.get_accepters,
      Volunteer.post_volunteer, Volunteer.decide_volunteer,
      Update.put_request.
    rewrite !lookup_delete_eq. repeat split; done.
Qed.

Lemma delete_effect_witness :
  Get.get_request Scenario.users
    (Delete.delete_request Scenario.after_B "r1" "u1").2 "r1" "u1"
  = Get.request_not_found.
Proof.
  destruct (delete_effect Scenario.users Scenario.after_B "r1" "u1"
              Scenario.R1_accepted) as [_ H].
  - vm_compute. reflexivity.
  - destruct H as (_ & _ & _ & H); [reflexivity|].
    apply (H "u1" Scenario.clock ∅).
Defined.

(** ** What no operation changes *)

(** X6: type, owner and creation time of a stored request never change.
    Whatever operation runs, a request that is there before and after
    (and is not replaced by a create call that is given its id) keeps
    them; its status stays as it was unless the operation is a volunteer
    call on it, which makes it accepted. *)
Theorem perform_keeps_identity
    (users : Users) (op : Operation) (requests : Requests) (id : Id)
    (r0 r' : Request) :
  requests !! id = Some r0 →
  (perform users op requests).2 !! id = Some r' →
  (∀ userId errors body clock, op ≠ create userId errors body id clock) →
  type r' = type r0 ∧ user r' = user r0 ∧ createdAt r' = createdAt r0
  ∧ (status r' = status r0
     ∨ status r' = accepted ∧ ∃ userId clock, op = volunteer id userId clock).
Proof.
  intros H0 Hr' Hcreate.
  assert (r' = r0 → type r' = type r0 ∧ user r' = user r0
                    ∧ createdAt r' = createdAt r0
                    ∧ (status r' = status r0
                       ∨ status r' = accepted
                         ∧ ∃ userId clock, op = volunteer id userId clock))
    as Hsame.
  { intros ->. repeat split; by left. }
  assert ((perform users op requests).2 = requests → r' = r0) as Hkept.
  { intros Heq. rewrite Heq in Hr'. congruence. }
  destruct op as [userId errors body newId clock
                 | id0 userId body clock declared
                 | id0 userId | id0 userId clock | | | | | | | ];
    try (apply Hsame, Hkept; reflexivity); cbn [perform] in Hr'.
  - (* create *)
    revert Hr'. unfold Create.post_request.
    destruct errors; [|intros Hr'; cbn [snd] in Hr'; apply Hsame; congruence].
    destruct (Create.phoneNumber _ _ _); [|intros Hr'; cbn [snd] in Hr'; apply Hsame; congruence].
    destruct (negb _); [intros Hr'; cbn [snd] in Hr'; apply Hsame; congruence|].
    destruct (Create.body_type body); [|intros Hr'; cbn [snd] in Hr'; apply Hsame; congruence].
    cbn [snd]. destruct (decide (newId = id)) as [->|Hne].
    + by destruct (Hcreate userId [] body clock).
    + rewrite lookup_insert_ne by done. intros Hr'; cbn [snd] in Hr'; apply Hsame; congruence.
  - (* update *)
    revert Hr'. unfold Update.put_request.
    destruct (requests !! id0) as [r|] eqn:Hfound;
      [|intros Hr'; cbn [snd] in Hr'; apply Hsame; congruence].
    destruct (negb _); [intros Hr'; cbn [snd] in Hr'; apply Hsame; congruence|].
    destruct (negb _); [intros Hr'; cbn [snd] in Hr'; apply Hsame; congruence|]. cbn [snd].
    destruct (decide (id0 = id)) as [->|Hne].
    + rewrite lookup_insert_eq. intros [= <-].
      assert (r = r0) as -> by congruence.
      destruct (save_frame r0
                  (Update.assign declared r0 (Update.updates_of (type r0) body))
                  (Update.saved_at clock)) as (Ht & Hu & Hs & _ & Hc & _).
      split; [exact Ht|]. split; [exact Hu|]. split; [exact Hc|].
      left. exact Hs.
    + rewrite lookup_insert_ne by done. intros Hr'; cbn [snd] in Hr'; apply Hsame; congruence.
  - (* delete *)
    revert Hr'. unfold Delete.delete_request.
    destruct (requests !! id0) as [r|];
      [|intros Hr'; cbn [snd] in Hr'; apply Hsame; congruence].
    destruct (negb _); [intros Hr'; cbn [snd] in Hr'; apply Hsame; congruence|]. cbn [snd].
    destruct (decide (id0 = id)) as [->|Hne].
    + by rewrite lookup_delete_eq.
    + rewrite lookup_delete_ne by done. intros Hr'; cbn [snd] in Hr'; apply Hsame; congruence.
  - (* volunteer *)
    revert Hr'. unfold Volunteer.post_volunteer.
    destruct (Volunteer.decide_volunteer _ _ _ _)
      as [r|saved owner profile] eqn:Hd;
      [intros Hr'; cbn [snd] in Hr'; apply Hsame; congruence|]. cbn [snd].
    destruct (decide_volunteer_accept _ _ _ _ _ _ _ _ Hd)
      as (r & Hfound & _ & _ & _ & _ & _ & ->).
    destruct (decide (id0 = id)) as [->|Hne].
    + rewrite lookup_insert_eq. intros [= <-].
      assert (r = r0) as -> by congruence.
      repeat split. right. split; [done|]. by exists userId, clock.
    + rewrite lookup_insert_ne by done. intros Hr'; cbn [snd] in Hr'; apply Hsame; congruence.
Qed.

Lemma perform_keeps_identity_witness :
  user Scenario.R1_accepted = user Scenario.R1.
Proof.
  refine (proj1 (proj2 (perform_keeps_identity Scenario.users
                          (volunteer "r1" "u2" Scenario.later)
                          Scenario.after_A "r1" Scenario.R1
                          Scenario.R1_accepted _ _ _))).
  - vm_compute. reflexivity.
  - vm_compute. reflexivity.
  - discriminate.
Defined.

(** ** Create *)

Lemma put_lookup k k' v (data : gmap string Json) :
  Create.put k v data !! k'
  = if decide (k = k')
    then match v with Some x => Some x | None => data !! k' end
    else data !! k'.
Proof.
  destruct v; simpl; case_decide; subst;
    rewrite ?lookup_insert_eq, ?lookup_insert_ne by done; done.
Qed.

(** X7: the paths of a new request are the generic ones and those of its
    own type; what the body carries for another type, or under any other
    name, is not stored. The priority of a blood request is the urgency
    level sent, and a complaint always has its list of images. *)
Theorem requestData_fields
    (t : RequestType) (body : gmap string Json) (number : Json) (k : string) :
  (is_Some (Create.requestData t body number !! k) →
   k ∈ (["name"; "phone"; "location"]
        ++ match t with
           | blood => ["bloodType"; "urgencyLevel"; "priority"]
           | elder_support => ["serviceType"; "dueDate"]
           | complaint => ["title"; "description"; "category"; "images"]
           end)%list)
  ∧ Create.requestData blood body number !! "priority"
    = body !! "urgencyLevel"
  ∧ Create.requestData blood body number !! "urgencyLevel"
    = body !! "urgencyLevel"
  ∧ is_Some (Create.requestData complaint body number !! "images").
Proof.
  split; [|split; [|split]].
  - intros Hsome.
    match goal with |- k ∈ ?l => destruct (decide (k ∈ l)) as [|Hnot] end;
      [done|exfalso].
    unfold Create.requestData in Hsome.
    destruct t; cbn [app] in Hnot;
      repeat (apply not_elem_of_cons in Hnot as [? Hnot]);
      rewrite !put_lookup_ne, lookup_empty in Hsome by done;
      by destruct Hsome.
  - unfold Create.requestData. rewrite put_lookup.
    case_decide; [|done]. destruct (body !! "urgencyLevel"); [done|].
    rewrite !put_lookup_ne by done. apply lookup_empty.
  - unfold Create.requestData. rewrite put_lookup_ne, put_lookup by done.
    case_decide; [|done]. destruct (body !! "urgencyLevel"); [done|].
    rewrite !put_lookup_ne by done. apply lookup_empty.
  - unfold Create.requestData, js_or. rewrite put_lookup.
    case_decide; [|done]. destruct (truthy (body !! "images")) eqn:Himg.
    + destruct (body !! "images"); [by eexists|done].
    + by eexists.
Qed.

Lemma requestData_fields_witness :
  "bloodType" ∈ (["name"; "phone"; "location"]
                 ++ ["bloodType"; "urgencyLevel"; "priority"])%list.
Proof.
  apply (proj1 (requestData_fields blood Scenario.body_R1
                  (JStr "9000000001") "bloodType")).
  vm_compute. eauto.
Defined.

(** X8: a create call that does not answer 201 stores nothing, and one
    that reports validation errors answers with them; no create call
    touches a request under another id. A 201 response carries the new
    request under the id it was stored with: owned by the caller, pending,
    without accepters, created at the time of the call, with the caller's
    profile populated as its [user]. *)
Theorem create_effect
    (users : Users) (requests : Requests) (userId newId : Id)
    (errors : list Json) (sent : gmap string Json) (clock : Clock) :
  let out :=
    Create.post_request users requests userId errors sent newId clock in
  (code out.1 ≠ 201%nat → out.2 = requests)
  ∧ (∀ id, id ≠ newId → out.2 !! id = requests !! id)
  ∧ (errors ≠ [] → out = (Create.validation_failed errors, requests))
  ∧ (code out.1 = 201%nat →
     ∃ r, out.2 !! newId = Some r
          ∧ user r = userId ∧ status r = pending ∧ accepters r = []
          ∧ createdAt r = clock 0%nat
          ∧ path ["request"; "_id"] (body out.1) = Some (JStr newId)
          ∧ path ["request"; "status"] (body out.1) = Some (JStr "pending")
          ∧ path ["request"; "user"] (body out.1)
            = Some (populated users contact_of userId)).
Proof.
  cbn zeta. unfold Create.post_request.
  destruct errors as [|e errors].
  - destruct (Create.phoneNumber users userId sent) as [number|];
      [|by repeat split].
    destruct (negb (truthy (Some number))); [by repeat split|].
    destruct (Create.body_type sent) as [t|]; [|by repeat split].
    cbn [fst snd code status_json].
    split; [done|]. split; [|split; [done|]].
    + intros id Hne. by rewrite lookup_insert_ne.
    + intros _. eexists. split; [apply lookup_insert_eq|].
      repeat split.
  - split; [done|]. split; [done|]. split; [done|]. discriminate.
Qed.

Lemma create_effect_witness :
  ∃ r, Scenario.after_A !! "r1" = Some r
       ∧ user r = "u1" ∧ status r = pending ∧ accepters r = []
       ∧ createdAt r = Scenario.clock 0%nat
       ∧ path ["request"; "_id"]
           (body (Create.post_request Scenario.users ∅ "u1" []
                    Scenario.body_R1 "r1" Scenario.clock).1)
         = Some (JStr "r1")
       ∧ path ["request"; "status"]
           (body (Create.post_request Scenario.users ∅ "u1" []
                    Scenario.body_R1 "r1" Scenario.clock).1)
         = Some (JStr "pending")
       ∧ path ["request"; "user"]
           (body (Create.post_request Scenario.users ∅ "u1" []
                    Scenario.body_R1 "r1" Scenario.clock).1)
         = Some (populated Scenario.users contact_of "u1").
Proof.
  apply (create_effect Scenario.users ∅ "u1" "r1" [] Scenario.body_R1
           Scenario.clock).
  vm_compute. reflexivity.
Defined.

(** ** The listing and its pagination *)

Lemma window_length {A} (skip limit : Z) (l : list A) :
  (length (Store.window skip limit l) ≤ length l)%nat
  ∧ (0 < limit → Z.of_nat (length (Store.window skip limit l)) ≤ limit).
Proof.
  unfold Store.window. destruct (limit =? 0) eqn:Hl.
  - rewrite length_drop. split; lia.
  - rewrite length_take, length_drop. split; lia.
Qed.

Lemma find_length matches s skip limit (requests : Requests) found :
  Store.find matches s skip limit requests = Some found →
  Z.of_nat (length found) ≤ Store.countDocuments matches requests
  ∧ (0 < limit → Z.of_nat (length found) ≤ limit).
Proof.
  unfold Store.find, Store.countDocuments.
  destruct (skip <? 0); [done|]. intros [= <-].
  pose proof (window_length skip limit
                (merge_sort (Store.before s)
                   (List.filter matches (map_to_list requests)))) as [H1 H2].
  rewrite (Permutation_length (merge_sort_Permutation (Store.before s) _))
    in H1.
  split; [lia|done].
Qed.

(** X9: a listing that answers 200 reports as [count] the number of
    requests it returns, as [totalRequests] the number of the caller's
    requests that pass the filters and as [current] the page asked for;
    it returns no more requests than that total, and no more than a
    positive page size. *)
Theorem listing_counts
    (users : Users) (requests : Requests) (userId : Id)
    (q : Listing.Query) :
  let response := Listing.get_requests users requests userId q in
  code response = 200%nat →
  path ["pagination"; "count"] (body response)
    = Some (JNum (Z.of_nat (length (listed response))))
  ∧ path ["pagination"; "totalRequests"] (body response)
    = Some (JNum (Store.countDocuments (Listing.query userId q) requests))
  ∧ path ["pagination"; "current"] (body response)
    = Some (JNum (Listing.q_page q))
  ∧ Z.of_nat (length (listed response))
    ≤ Store.countDocuments (Listing.query userId q) requests
  ∧ (0 < Listing.q_limit q →
     Z.of_nat (length (listed response)) ≤ Listing.q_limit q).
Proof.
  cbn zeta. unfold Listing.get_requests.
  destruct (Store.find _ _ _ _ _) as [found|] eqn:Hfind; [|discriminate].
  destruct (mapM _ found) as [items|] eqn:Hitems; [|discriminate].
  intros _. unfold listed. cbn.
  apply mapM_Some_1, Forall2_length in Hitems. rewrite <- Hitems.
  destruct (find_length _ _ _ _ _ _ Hfind) as [Htotal Hlimit].
  repeat split; done.
Qed.

Lemma listing_counts_witness :
  path ["pagination"; "totalRequests"]
    (body (Listing.get_requests Scenario.users Scenario.after_B "u1"
             Scenario.all))
  = Some (JNum (Store.countDocuments (Listing.query "u1" Scenario.all)
                  Scenario.after_B)).
Proof.
  apply (listing_counts Scenario.users Scenario.after_B "u1" Scenario.all).
  vm_compute. reflexivity.
Defined.



(** ** The status filter *)

Lemma split_commas_whole (e : string) :
  no_comma e = true → split_commas e = [e].
Proof.
  induction e as [|c e IH]; [done|]. cbn [no_comma split_commas].
  intros [Hc He]%andb_prop. apply negb_true_iff in Hc. rewrite Hc.
  by rewrite (IH He).
Qed.

Lemma split_commas_first (e rest : string) :
  no_comma e = true →
  split_commas (e +:+ String ","%char rest) = e :: split_commas rest.
Proof.
  induction e as [|c e IH]; intros He.
  - cbn. done.
  - cbn [no_comma] in He. apply andb_prop in He as [Hc He].
    apply negb_true_iff in Hc.
    change (String c e +:+ String ","%char rest)
      with (String c (e +:+ String ","%char rest)).
    cbn [split_commas]. rewrite Hc. by rewrite (IH He).
Qed.

(** Splitting at commas undoes joining with commas. *)
Lemma split_commas_concat (elems : list string) :
  elems ≠ [] → Forall (fun e => no_comma e = true) elems →
  split_commas (String.concat "," elems) = elems.
Proof.
  intros Hne Hall. induction Hall as [|e elems He Hall IH]; [done|].
  destruct elems as [|e' elems].
  - cbn. by apply split_commas_whole.
  - change (String.concat "," (e :: e' :: elems))
      with (e +:+ String ","%char (String.concat "," (e' :: elems))).
    rewrite split_commas_first by done. by rewrite IH.
Qed.

Lemma status_name_inj s1 s2 : status_name s1 = status_name s2 → s1 = s2.
Proof. by destruct s1, s2. Qed.

(** X11: a status filter names several statuses, separated by commas and
    with any white space around each. Joined from parts that contain no
    comma and trim to the names of the statuses [wanted], it selects,
    among the caller's requests, exactly those whose status is one of
    them. *)
Theorem status_filter_selects
    (userId : Id) (elems : list string) (wanted : list Status)
    (sortBy : option string) (page limit : Z) (doc : Id * Request) :
  elems ≠ [] →
  Forall2 (fun e s => no_comma e = true ∧ trim e = status_name s)
          elems wanted →
  Listing.query userId
    {| Listing.q_type := None;
       Listing.q_status := Some (String.concat "," elems);
       Listing.q_sortBy := sortBy;
       Listing.q_page := page; Listing.q_limit := limit |} doc
  = bool_decide (user doc.2 = userId) && bool_decide (status doc.2 ∈ wanted).
Proof.
  intros Hne Hparts. unfold Listing.query.
  cbn [Listing.q_type Listing.q_status Listing.given andb].
  rewrite andb_true_r. f_equal.
  assert (Forall (fun e => no_comma e = true) elems) as Hplain.
  { clear Hne. induction Hparts as [|???? [? _]]; by constructor. }
  assert (map trim elems = map status_name wanted) as Hnames.
  { clear Hne Hplain. induction Hparts as [|???? [_ ?] _ IH]; [done|].
    cbn. by f_equal. }
  assert (String.concat "," elems ≠ "") as Hgiven.
  { destruct Hparts as [|e s elems' wanted' [_ He] _]; [done|].
    assert (e ≠ "") by (intros ->; by destruct s).
    destruct e; [done|]. by destruct elems'. }
  destruct (String.eqb_spec (String.concat "," elems) "") as [|_]; [done|].
  cbn [negb]. rewrite split_commas_concat, Hnames by done.
  clear. induction wanted as [|s wanted IH]; [done|].
  cbn [map existsb]. rewrite IH.
  destruct (String.eqb_spec (status_name (status doc.2)) (status_name s))
    as [Heq%status_name_inj|Hneq]; cbn [orb].
  - symmetry. apply bool_decide_eq_true_2. rewrite Heq. left.
  - apply bool_decide_ext. rewrite elem_of_cons.
    split; [by right|]. intros [Heq|?]; [by rewrite Heq in Hneq|done].
Qed.

Lemma status_filter_selects_witness :
  Listing.query "u1"
    {| Listing.q_type := None;
       Listing.q_status := Some "pending, accepted";
       Listing.q_sortBy := None;
       Listing.q_page := 1; Listing.q_limit := 10 |}
    ("r1", Scenario.R1_accepted)
  = bool_decide (user Scenario.R1_accepted = "u1")
    && bool_decide (status Scenario.R1_accepted ∈ [pending; accepted]).
Proof.
  apply (status_filter_selects "u1" ["pending"; " accepted"]
           [pending; accepted] None 1 10 ("r1", Scenario.R1_accepted)).
  - discriminate.
  - repeat constructor.
Defined.

(** ** What the listing shows and what its callback hides *)

Lemma document_accepters id r user_json accepters_json :
  get "accepters" (document id r user_json accepters_json)
  = Some (JArr accepters_json).
Proof. reflexivity. Qed.

Lemma document_user id r user_json accepters_json :
  get "user" (document id r user_json accepters_json) = Some user_json.
Proof. reflexivity. Qed.

(** X12: the listing never hides anything. Each item is one of the
    caller's own requests, with its phone as stored and its accepters
    with their populated name, phone and email: the branch of the
    callback that writes the sentinel is not taken by this route. *)
Theorem listing_shows_everything
    (users : Users) (requests : Requests) (userId : Id)
    (q : Listing.Query) (item : Json) :
  item ∈ listed (Listing.get_requests users requests userId q) →
  ∃ id request,
    requests !! id = Some request ∧ user request = userId
    ∧ get "_id" item = Some (JStr id)
    ∧ get "user" item = Some (JStr userId)
    ∧ get "phone" item = paths request !! "phone"
    ∧ get "accepters" item
      = Some (JArr (map (fun a =>
                           JObj [("user", populated users contact_of (a_user a));
                                 ("acceptedAt", JDate (acceptedAt a));
                                 ("status", JStr (a_status a))])
                        (accepters request))).
Proof.
  intros Hin.
  destruct (listing_item_owned _ _ _ _ _ Hin)
    as (id & request & Hfound & Howner & ->).
  exists id, request. rewrite document_phone, Howner. repeat split; done.
Qed.

Lemma listing_shows_everything_witness :
  ∃ id request,
    Scenario.after_B !! id = Some request ∧ user request = "u1"
    ∧ get "_id" (document "r1" Scenario.R1_accepted (JStr "u1")
                   (Listing.populated_accepters Scenario.users
                      Scenario.R1_accepted)) = Some (JStr id)
    ∧ get "user" (document "r1" Scenario.R1_accepted (JStr "u1")
                    (Listing.populated_accepters Scenario.users
                       Scenario.R1_accepted)) = Some (JStr "u1")
    ∧ get "phone" (document "r1" Scenario.R1_accepted (JStr "u1")
                     (Listing.populated_accepters Scenario.users
                        Scenario.R1_accepted)) = paths request !! "phone"
    ∧ get "accepters" (document "r1" Scenario.R1_accepted (JStr "u1")
                         (Listing.populated_accepters Scenario.users
                            Scenario.R1_accepted))
      = Some (JArr (map (fun a =>
                           JObj [("user",
                                  populated Scenario.users contact_of (a_user a));
                                 ("acceptedAt", JDate (acceptedAt a));
                                 ("status", JStr (a_status a))])
                        (accepters request))).
Proof.
  apply (listing_shows_everything Scenario.users Scenario.after_B "u1"
           Scenario.all).
  vm_compute. left.
Defined.

Lemma assoc_set_eq k v (l : list (string * Json)) :
  assoc k (assoc_set k v l) = Some v.
Proof.
  induction l as [|[k' v'] l IH]; cbn [assoc_set assoc].
  - by rewrite String.eqb_refl.
  - destruct (String.eqb_spec k k') as [->|Hne]; cbn [assoc].
    + by rewrite String.eqb_refl.
    + destruct (String.eqb_spec k k'); [done|]. apply IH.
Qed.

Lemma assoc_set_ne k k' v (l : list (string * Json)) :
  k ≠ k' → assoc k' (assoc_set k v l) = assoc k' l.
Proof.
  intros Hne. induction l as [|[k0 v0] l IH]; cbn [assoc_set assoc].
  - destruct (String.eqb_spec k' k); [congruence|done].
  - destruct (String.eqb_spec k k0) as [->|Hne0]; cbn [assoc].
    + destruct (String.eqb_spec k' k0); [congruence|done].
    + destruct (String.eqb_spec k' k0); [done|apply IH].
Qed.

(** What [some] answers, when it answers. *)
Lemma some_accepter_sound users userId l b :
  some_accepter users userId l = Some b →
  b = true ↔ userId ∈ map a_user l.
Proof.
  revert b. induction l as [|a l IH]; intros b; cbn [some_accepter map].
  - intros [= <-]. split; [done|]. by intros ?%elem_of_nil.
  - destruct (users !! a_user a); [|done].
    case_bool_decide as Ha.
    + intros [= <-]. split; [|done]. intros _. rewrite Ha. left.
    + intros Hrest. rewrite (IH b Hrest), elem_of_cons.
      split; [by right|]. intros [?|?]; [congruence|done].
Qed.

(** X13: the callback of the listing. For a viewer who is the owner or
    one of the accepters the item is the stored document with its
    accepters populated. For any other viewer the phone is the sentinel
    and every accepter's name, email and phone are the sentinel; the
    accepters keep their ids, times and statuses, and every other
    property of the item is as in the stored document. *)
Theorem filtered_redacts
    (users : Users) (viewer id : Id) (request : Request) (item : Json) :
  Listing.filtered users viewer (id, request) = Some item →
  (user request = viewer ∨ viewer ∈ map a_user (accepters request) →
   item = document id request (JStr (user request))
            (Listing.populated_accepters users request))
  ∧ (user request ≠ viewer → viewer ∉ map a_user (accepters request) →
     get "phone" item = Some (JStr "Hidden")
     ∧ get "accepters" item
       = Some (JArr (map (fun a =>
                            JObj [("user",
                                   JObj [("_id", JStr (a_user a));
                                         ("name", JStr "Hidden");
                                         ("email", JStr "Hidden");
                                         ("phone", JStr "Hidden")]);
                                  ("acceptedAt", JDate (acceptedAt a));
                                  ("status", JStr (a_status a))])
                         (accepters request)))
     ∧ ∀ k, k ≠ "phone" → k ≠ "accepters" →
            get k item
            = get k (document id request (JStr (user request))
                       (Listing.populated_accepters users request))).
Proof.
  unfold Listing.filtered. cbn [fst snd].
  destruct (some_accepter users viewer (accepters request)) as [b|] eqn:Hsome;
    [|done].
  apply some_accepter_sound in Hsome. cbn [mbind option_bind].
  intros Hitem. split.
  - intros Hallowed.
    assert (bool_decide (user request = viewer) || b = true) as Hor.
    { destruct Hallowed as [H|H].
      - by rewrite (bool_decide_eq_true_2 _ H).
      - apply Hsome in H. subst b. apply orb_true_r. }
    rewrite Hor in Hitem. by injection Hitem as <-.
  - intros Hne Hnotin.
    rewrite (bool_decide_eq_false_2 _ Hne) in Hitem.
    destruct b; [by destruct Hnotin; apply Hsome|].
    cbn [orb negb] in Hitem. injection Hitem as <-.
    unfold set, document. split; [|split].
    + cbn [get]. apply assoc_set_eq.
    + reflexivity.
    + intros k Hphone Haccepters. cbn [get app assoc].
      destruct (String.eqb_spec k "_id"); [done|].
      destruct (String.eqb_spec k "type"); [done|].
      destruct (String.eqb_spec k "user"); [done|].
      destruct (String.eqb_spec k "status"); [done|].
      destruct (String.eqb_spec k "accepters"); [done|].
      destruct (String.eqb_spec k "createdAt"); [done|].
      destruct (String.eqb_spec k "updatedAt"); [done|].
      by apply assoc_set_ne.
Qed.

Lemma filtered_redacts_witness :
  get "phone"
    (set "phone" Hidden
       (document "r1" Scenario.R1_accepted (JStr "u1")
          (map Listing.hidden_accepter (accepters Scenario.R1_accepted))))
  = Some (JStr "Hidden").
Proof.
  refine (proj1 (proj2 (filtered_redacts Scenario.users "u3" "r1"
                          Scenario.R1_accepted _ _) _ _)).
  - vm_compute. reflexivity.
  - discriminate.
  - intros H. repeat (apply elem_of_cons in H as [H|H]; [discriminate H|]).
    by apply elem_of_nil in H.
Defined.

(** ** The public listing, before and after a match *)

(** An item of the public listing stands for an open request of somebody
    else and carries its id. *)
Lemma public_item_open users (requests : Requests) userId item :
  item ∈ listed (Public.get_public_blood users requests userId) →
  ∃ id request,
    requests !! id = Some request
    ∧ Public.query userId (id, request) = true
    ∧ get "_id" item = Some (JStr id).
Proof.
  unfold Public.get_public_blood.
  destruct (Store.find _ _ _ _ _) as [found|] eqn:Hfind;
    [|by intros ?%elem_of_nil].
  destruct (mapM _ found) as [items|] eqn:Hitems;
    [|by intros ?%elem_of_nil].
  unfold listed. simpl. intros Hin.
  destruct (mapM_elem_of _ _ _ _ Hitems Hin) as ([id request] & Hdoc & Hitem).
  destruct (find_elem_of _ _ _ _ _ _ _ Hfind Hdoc) as [Hstored Hquery].
  exists id, request. split; [done|]. split; [done|].
  unfold Public.item in Hitem. cbn [fst snd] in Hitem.
  destruct (users !! user request); [|done]. injection Hitem as <-.
  by destruct (paths request !! "name").
Qed.

(** X14: the public listing has at most fifty items. When the owners of
    the open requests have profiles it answers 200, and when there are
    no more than fifty open blood requests of other users it shows every
    one of them. *)
Theorem public_listing_complete
    (users : Users) (requests : Requests) (userId : Id) :
  let response := Public.get_public_blood users requests userId in
  (length (listed response) ≤ 50)%nat
  ∧ ((∀ id r, requests !! id = Some r → Public.query userId (id, r) = true →
              is_Some (users !! user r)) →
     code response = 200%nat
     ∧ (Store.countDocuments (Public.query userId) requests ≤ 50 →
        ∀ id r, requests !! id = Some r →
                type r = blood → status r = pending → accepters r = [] →
                user r ≠ userId →
                ∃ item, item ∈ listed response
                        ∧ get "_id" item = Some (JStr id))).
Proof.
  cbn zeta. unfold Public.get_public_blood.
  destruct (Store.find _ _ _ _ _) as [found|] eqn:Hfind; [|done].
  destruct (find_length _ _ _ _ _ _ Hfind) as [_ Hfifty].
  split.
  - destruct (mapM _ found) as [items|] eqn:Hitems; [|cbn; lia].
    unfold listed. cbn.
    apply mapM_Some_1, Forall2_length in Hitems. lia.
  - intros Hprofiles.
    assert (is_Some (mapM (Public.item users) found)) as [items Hitems].
    { apply mapM_is_Some_2, Forall_forall. intros [id r] Hdoc.
      destruct (find_elem_of _ _ _ _ _ _ _ Hfind Hdoc) as [Hstored Hquery].
      destruct (Hprofiles id r Hstored Hquery) as [owner Howner].
      unfold compose, Public.item. cbn [fst snd]. rewrite Howner. by eexists. }
    rewrite Hitems. split; [done|].
    intros Hfew id r Hstored Hblood Hpending Hnone Hother.
    assert ((id, r) ∈ found) as Hdoc.
    { revert Hfind. unfold Store.find, Store.window, Store.countDocuments in *.
      cbn. intros [= <-]. rewrite drop_0, take_ge.
      - rewrite merge_sort_Permutation.
        apply list_elem_of_In, filter_In. split.
        + by apply list_elem_of_In, elem_of_map_to_list.
        + unfold Public.query. cbn [fst snd].
          by rewrite (bool_decide_eq_true_2 _ Hblood),
            (bool_decide_eq_true_2 _ Hpending),
            (bool_decide_eq_true_2 _ Hnone),
            (bool_decide_eq_false_2 _ Hother).
      - rewrite (Permutation_length (merge_sort_Permutation _ _)). lia. }
    apply list_elem_of_lookup_1 in Hdoc as [i Hi].
    apply mapM_Some_1 in Hitems.
    destruct (Forall2_lookup_l _ _ _ _ _ Hitems Hi) as (item & Hitem & Hmade).
    exists item. split.
    + unfold listed. cbn. by eapply list_elem_of_lookup_2.
    + unfold Public.item in Hmade. cbn [fst snd] in Hmade.
      destruct (users !! user r); [|done]. injection Hmade as <-.
      by destruct (paths r !! "name").
Qed.

Lemma public_listing_complete_witness :
  ∃ item,
    item ∈ listed (Public.get_public_blood Scenario.users Scenario.after_A "u3")
    ∧ get "_id" item = Some (JStr "r1").
Proof.
  destruct (public_listing_complete Scenario.users Scenario.after_A "u3")
    as [_ H].
  destruct H as [_ H].
  - intros id r Hr _.
    assert (map_Forall (fun _ r => is_Some (Scenario.users !! user r))
              Scenario.after_A) as Hall.
    { apply (bool_decide_unpack _). vm_compute. exact I. }
    by apply (Hall id r).
  - apply (H ltac:(vm_compute; discriminate) "r1" Scenario.R1);
      [vm_compute; reflexivity | reflexivity | reflexivity | reflexivity
      | discriminate].
Defined.

(** X15: a matched request is no longer offered. After a successful
    volunteer call the request appears in nobody's public listing. *)
Theorem matched_request_not_public
    (users : Users) (requests requests' : Requests) (id donor : Id)
    (clock : Clock) (response : Response) :
  Volunteer.post_volunteer users requests id donor clock
    = (response, requests') →
  code response = 200%nat →
  ∀ viewer item,
    item ∈ listed (Public.get_public_blood users requests' viewer) →
    get "_id" item ≠ Some (JStr id).
Proof.
  intros Hrun Hcode viewer item Hin Hid.
  destruct (post_volunteer_200 _ _ _ _ _ _ _ Hrun Hcode)
    as (saved & owner & profile & Hdecide & -> & ->).
  destruct (decide_volunteer_accept _ _ _ _ _ _ _ _ Hdecide)
    as (request & _ & _ & _ & _ & _ & _ & ->).
  destruct (public_item_open _ _ _ _ Hin) as (id' & r & Hstored & Hquery & Hid').
  rewrite Hid' in Hid. injection Hid as ->.
  rewrite lookup_insert_eq in Hstored. injection Hstored as <-.
  unfold Public.query in Hquery. cbn [fst snd with_acceptance status] in Hquery.
  by rewrite (bool_decide_eq_false_2 (accepted = pending)), andb_false_r
    in Hquery.
Qed.

Lemma matched_request_not_public_witness :
  get "_id"
    (hd JNull (listed (Public.get_public_blood Scenario.users
                         Crowd.after_match "u2")))
  ≠ Some (JStr "r1").
Proof.
  apply (matched_request_not_public Scenario.users Crowd.before_match
           Crowd.after_match "r1" "u2" Scenario.later
           (Volunteer.post_volunteer Scenario.users Crowd.before_match
              "r1" "u2" Scenario.later).1 eq_refl
           ltac:(vm_compute; reflexivity) "u2").
  vm_compute. left.
Defined.

(** ** The lists of accepted requests *)

Lemma userAcceptance_found users userId l found :
  Accepted.userAcceptance users userId l = Some found →
  existsb (fun a => bool_decide (a_user a = userId)) l = true →
  ∃ a, found = Some a ∧ a ∈ l ∧ a_user a = userId.
Proof.
  induction l as [|a l IH]; cbn [Accepted.userAcceptance existsb]; [done|].
  destruct (users !! a_user a); [|done].
  case_bool_decide as Ha.
  - intros [= <-] _. exists a. repeat split; [left|done].
  - cbn [orb]. intros Hrest Hlater.
    destruct (IH Hrest Hlater) as (a' & -> & Hin & Hu).
    exists a'. repeat split; [by right|done].
Qed.

(** X16: each item of the caller's list of accepted requests stands for
    a request the caller is an accepter of. It carries the request's name
    and phone as stored, the owner populated with name and email, and the
    time of the caller's own acceptance record; the present time the code
    falls back to is never sent. *)
Theorem accepted_items
    (users : Users) (requests : Requests) (userId : Id) (clock : Clock)
    (item : Json) :
  item ∈ listed (Accepted.get_accepted users requests userId clock) →
  ∃ id request a,
    requests !! id = Some request
    ∧ a ∈ accepters request ∧ a_user a = userId
    ∧ get "_id" item = Some (JStr id)
    ∧ get "name" item = paths request !! "name"
    ∧ get "phone" item = paths request !! "phone"
    ∧ get "requester" item
      = Some (populated users
                (fun u => [("name", Some (JStr (name u)));
                           ("email", Some (JStr (email u)))])
                (user request))
    ∧ path ["acceptance"; "acceptedAt"] item = Some (JDate (acceptedAt a)).
Proof.
  unfold Accepted.get_accepted.
  destruct (Store.find _ _ _ _ _) as [found|] eqn:Hfind;
    [|by intros ?%elem_of_nil].
  destruct (mapM _ found) as [items|] eqn:Hitems;
    [|by intros ?%elem_of_nil].
  unfold listed. simpl. intros Hin.
  destruct (mapM_elem_of _ _ _ _ Hitems Hin) as ([id request] & Hdoc & Hitem).
  destruct (find_elem_of _ _ _ _ _ _ _ Hfind Hdoc) as [Hstored Hquery].
  unfold Accepted.query in Hquery. unfold Accepted.item in Hitem.
  cbn [fst snd] in *.
  destruct (Accepted.userAcceptance users userId (accepters request))
    as [found'|] eqn:Hacc; [|done].
  destruct (userAcceptance_found _ _ _ _ Hacc Hquery) as (a & -> & Ha & Hu).
  cbn [mbind option_bind] in Hitem. injection Hitem as <-.
  exists id, request, a. split; [done|]. split; [done|]. split; [done|].
  destruct (paths request !! "name"), (paths request !! "phone"),
    (paths request !! "location"), (paths request !! "bloodType"),
    (paths request !! "urgencyLevel"); repeat split; reflexivity.
Qed.

Lemma accepted_items_witness :
  ∃ id request a,
    Scenario.after_B !! id = Some request
    ∧ a ∈ accepters request ∧ a_user a = "u2"
    ∧ get "_id" (hd JNull (listed (Accepted.get_accepted Scenario.users
                                     Scenario.after_B "u2" Scenario.clock)))
      = Some (JStr id)
    ∧ get "name" (hd JNull (listed (Accepted.get_accepted Scenario.users
                                      Scenario.after_B "u2" Scenario.clock)))
      = paths request !! "name"
    ∧ get "phone" (hd JNull (listed (Accepted.get_accepted Scenario.users
                                       Scenario.after_B "u2" Scenario.clock)))
      = paths request !! "phone"
    ∧ get "requester"
        (hd JNull (listed (Accepted.get_accepted Scenario.users
                             Scenario.after_B "u2" Scenario.clock)))
      = Some (populated Scenario.users
                (fun u => [("name", Some (JStr (name u)));
                           ("email", Some (JStr (email u)))])
                (user request))
    ∧ path ["acceptance"; "acceptedAt"]
        (hd JNull (listed (Accepted.get_accepted Scenario.users
                             Scenario.after_B "u2" Scenario.clock)))
      = Some (JDate (acceptedAt a)).
Proof.
  apply (accepted_items Scenario.users Scenario.after_B "u2" Scenario.clock).
  vm_compute. left.
Defined.

Lemma existsb_accepter userId (l : list Accepter) :
  existsb (fun a => bool_decide (a_user a = userId)) l = true
  ↔ userId ∈ map a_user l.
Proof.
  induction l as [|a l IH]; cbn [existsb map].
  - split; [done|]. by intros ?%elem_of_nil.
  - rewrite orb_true_iff, IH, elem_of_cons, bool_decide_eq_true.
    split; intros [?|?]; auto.
Qed.

(** An item of the list of accepted blood requests, with the request it
    was made from. *)
Lemma blood_accepted_item users (requests : Requests) userId item :
  item ∈ listed (BloodAccepted.get_blood_accepted users requests userId) →
  ∃ id request owner donor_json,
    requests !! id = Some request
    ∧ BloodAccepted.query userId (id, request) = true
    ∧ users !! user request = Some owner
    ∧ item = Contacts.match_view id request
               (bool_decide (user request = userId)) owner donor_json.
Proof.
  unfold BloodAccepted.get_blood_accepted.
  destruct (Store.find _ _ _ _ _) as [found|] eqn:Hfind;
    [|by intros ?%elem_of_nil].
  destruct (mapM _ found) as [items|] eqn:Hitems;
    [|by intros ?%elem_of_nil].
  unfold listed. simpl. intros Hin.
  destruct (mapM_elem_of _ _ _ _ Hitems Hin) as ([id request] & Hdoc & Hitem).
  destruct (find_elem_of _ _ _ _ _ _ _ Hfind Hdoc) as [Hstored Hquery].
  unfold BloodAccepted.item in Hitem. cbn [fst snd] in Hitem.
  destruct (users !! user request) as [owner|] eqn:Howner; [|done].
  cbn [mbind option_bind] in Hitem.
  destruct (Contacts.donor users (head (accepters request)))
    as [donor_json|]; [|done].
  cbn [mbind option_bind] in Hitem. injection Hitem as <-.
  by exists id, request, owner, donor_json.
Qed.

(** X17: each item of the caller's list of accepted blood requests
    stands for an accepted blood request that the caller owns or is an
    accepter of. The role sent is requester exactly when the caller owns
    the request, donor otherwise, and the requester shown is the owner,
    with name, phone and email. *)
Theorem blood_accepted_roles
    (users : Users) (requests : Requests) (userId : Id) (item : Json) :
  item ∈ listed (BloodAccepted.get_blood_accepted users requests userId) →
  ∃ id request owner,
    requests !! id = Some request
    ∧ type request = blood ∧ status request = accepted
    ∧ users !! user request = Some owner
    ∧ (user request = userId ∨ userId ∈ map a_user (accepters request))
    ∧ get "_id" item = Some (JStr id)
    ∧ get "userRole" item
      = Some (JStr (if bool_decide (user request = userId)
                    then "requester" else "donor"))
    ∧ get "requester" item
      = Some (JObj [("name", JStr (name owner));
                    ("phone", JStr (phone owner));
                    ("email", JStr (email owner))]).
Proof.
  intros Hin.
  destruct (blood_accepted_item _ _ _ _ Hin)
    as (id & request & owner & donor_json & Hstored & Hquery & Howner & ->).
  unfold BloodAccepted.query in Hquery. cbn [fst snd] in Hquery.
  apply andb_prop in Hquery as [Hquery Hparty].
  apply andb_prop in Hquery as [Hblood%bool_decide_eq_true
                                  Haccepted%bool_decide_eq_true].
  apply orb_prop in Hparty.
  rewrite bool_decide_eq_true, existsb_accepter in Hparty.
  exists id, request, owner.
  split; [done|]. split; [done|]. split; [done|]. split; [done|].
  split; [done|]. unfold Contacts.match_view.
  destruct (paths request !! "bloodType"), (paths request !! "urgencyLevel"),
    (paths request !! "location"), (head (accepters request)),
    (bool_decide (user request = userId)); repeat split; reflexivity.
Qed.

Lemma blood_accepted_roles_witness :
  ∃ id request owner,
    Scenario.after_B !! id = Some request
    ∧ type request = blood ∧ status request = accepted
    ∧ Scenario.users !! user request = Some owner
    ∧ (user request = "u2" ∨ "u2" ∈ map a_user (accepters request))
    ∧ get "_id"
        (hd JNull (listed (BloodAccepted.get_blood_accepted Scenario.users
                             Scenario.after_B "u2")))
      = Some (JStr id)
    ∧ get "userRole"
        (hd JNull (listed (BloodAccepted.get_blood_accepted Scenario.users
                             Scenario.after_B "u2")))
      = Some (JStr (if bool_decide (user request = "u2")
                    then "requester" else "donor"))
    ∧ get "requester"
        (hd JNull (listed (BloodAccepted.get_blood_accepted Scenario.users
                             Scenario.after_B "u2")))
      = Some (JObj [("name", JStr (name owner));
                    ("phone", JStr (phone owner));
                    ("email", JStr (email owner))]).
Proof.
  apply (blood_accepted_roles Scenario.users Scenario.after_B "u2").
  vm_compute. left.
Defined.

(** Without skip and limit, [find] returns every document that satisfies
    the query. *)
Lemma find_all_elem_of matches s (requests : Requests) found id r :
  Store.find matches s 0 0 requests = Some found →
  requests !! id = Some r → matches (id, r) = true →
  (id, r) ∈ found.
Proof.
  unfold Store.find, Store.window. cbn. intros [= <-] Hstored Hmatch.
  rewrite drop_0, merge_sort_Permutation.
  apply list_elem_of_In, filter_In. split; [|done].
  by apply list_elem_of_In, elem_of_map_to_list.
Qed.

(** The image of an element of a mapped list is in the result. *)
Lemma mapM_elem_of_image {A B} (f : A → option B) l k x :
  mapM f l = Some k → x ∈ l → ∃ y, y ∈ k ∧ f x = Some y.
Proof.
  intros HF%mapM_Some_1 [i Hi]%list_elem_of_lookup_1.
  destruct (Forall2_lookup_l _ _ _ _ _ HF Hi) as (y & Hy & Hfx).
  exists y. split; [by eapply list_elem_of_lookup_2|done].
Qed.

(** X18: a match shows up where the two parties look for it. After a
    successful volunteer call, the list of accepted blood requests of the
    owner and that of the donor, when they answer 200, contain the
    request, with the role requester for the owner and donor for the
    donor; the donor's list of accepted requests, when it answers 200,
    contains it with the time of the acceptance; and the owner's read of
    the accepters returns the donor's record alone, with the donor's
    name, phone and email. *)
Theorem match_is_listed
    (users : Users) (requests requests' : Requests) (id donor : Id)
    (clock : Clock) (response : Response) :
  Volunteer.post_volunteer users requests id donor clock
    = (response, requests') →
  code response = 200%nat →
  ∃ request profile,
    requests !! id = Some request ∧ users !! donor = Some profile
    ∧ (∀ viewer, viewer = user request ∨ viewer = donor →
         code (BloodAccepted.get_blood_accepted users requests' viewer)
           = 200%nat →
         ∃ item,
           item ∈ listed (BloodAccepted.get_blood_accepted users requests'
                            viewer)
           ∧ get "_id" item = Some (JStr id)
           ∧ get "userRole" item
             = Some (JStr (if bool_decide (viewer = user request)
                           then "requester" else "donor")))
    ∧ (∀ now,
         code (Accepted.get_accepted users requests' donor now) = 200%nat →
         ∃ item,
           item ∈ listed (Accepted.get_accepted users requests' donor now)
           ∧ get "_id" item = Some (JStr id)
           ∧ path ["acceptance"; "acceptedAt"] item
             = Some (JDate (clock 0%nat)))
    ∧ Accepters.get_accepters users requests' id (user request)
      = json (JObj
          [("success", JBool true);
           ("accepters",
            JArr [JObj [("user",
                         JObj [("_id", JStr donor);
                               ("name", JStr (name profile));
                               ("phone", JStr (phone profile));
                               ("email", JStr (email profile))]);
                        ("acceptedAt", JDate (clock 0%nat));
                        ("status", JStr "accepted")]])]).
Proof.
  intros Hrun Hcode.
  destruct (post_volunteer_200 _ _ _ _ _ _ _ Hrun Hcode)
    as (saved & owner & profile & Hdecide & -> & ->).
  destruct (decide_volunteer_accept _ _ _ _ _ _ _ _ Hdecide)
    as (request & Hfound & Hblood & Howner & Hself & Hprofile & Hnone & ->).
  exists request, profile. split; [done|]. split; [done|].
  set (saved := stamped (with_acceptance request
                           (Volunteer.acceptance donor clock))
                        (Volunteer.saved_at clock)).
  assert ((<[id:=saved]> requests) !! id = Some saved) as Hsaved
    by apply lookup_insert_eq.
  split; [|split].
  - intros viewer Hviewer. unfold BloodAccepted.get_blood_accepted.
    destruct (Store.find _ _ _ _ _) as [found|] eqn:Hfind; [|discriminate].
    destruct (mapM _ found) as [items|] eqn:Hitems; [|discriminate].
    intros _.
    assert ((id, saved) ∈ found) as Hdoc.
    { apply (find_all_elem_of _ _ _ _ _ _ Hfind Hsaved).
      unfold BloodAccepted.query, saved.
      cbn [fst snd stamped with_acceptance type status user accepters].
      rewrite (bool_decide_eq_true_2 _ Hblood), Hnone.
      cbn [app existsb Volunteer.acceptance a_user andb].
      destruct Hviewer as [->| ->].
      - by rewrite (bool_decide_eq_true_2 (user request = user request)).
      - rewrite (bool_decide_eq_true_2 (donor = donor)) by done.
        by destruct (bool_decide (user request = donor)). }
    destruct (mapM_elem_of_image _ _ _ _ Hitems Hdoc) as (item & Hin & Hitem).
    exists item. split; [done|].
    unfold BloodAccepted.item, saved in Hitem.
    cbn [fst snd stamped with_acceptance user accepters] in Hitem.
    rewrite Howner, Hnone in Hitem.
    cbn [mbind option_bind app head Contacts.donor Volunteer.acceptance
           a_user] in Hitem.
    rewrite Hprofile in Hitem. cbn [mbind option_bind] in Hitem.
    injection Hitem as <-. unfold Contacts.match_view.
    cbn [stamped with_acceptance paths accepters status createdAt].
    assert (bool_decide (user request = viewer)
            = bool_decide (viewer = user request)) as ->.
    { apply bool_decide_ext. split; congruence. }
    destruct (paths request !! "bloodType"),
      (paths request !! "urgencyLevel"), (paths request !! "location"),
      (bool_decide (viewer = user request)); rewrite Hnone;
      split; reflexivity.
  - intros now. unfold Accepted.get_accepted.
    destruct (Store.find _ _ _ _ _) as [found|] eqn:Hfind; [|discriminate].
    destruct (mapM _ found) as [items|] eqn:Hitems; [|discriminate].
    intros _.
    assert ((id, saved) ∈ found) as Hdoc.
    { apply (find_all_elem_of _ _ _ _ _ _ Hfind Hsaved).
      unfold Accepted.query, saved.
      cbn [fst snd stamped with_acceptance accepters]. rewrite Hnone.
      cbn [app existsb Volunteer.acceptance a_user].
      by rewrite (bool_decide_eq_true_2 (donor = donor)). }
    destruct (mapM_elem_of_image _ _ _ _ Hitems Hdoc) as (item & Hin & Hitem).
    exists item. split; [done|].
    unfold Accepted.item, saved in Hitem.
    cbn [fst snd stamped with_acceptance user accepters] in Hitem.
    rewrite Hnone in Hitem.
    cbn [app Accepted.userAcceptance Volunteer.acceptance a_user] in Hitem.
    rewrite Hprofile in Hitem.
    rewrite (bool_decide_eq_true_2 (donor = donor)) in Hitem by done.
    cbn [mbind option_bind] in Hitem. injection Hitem as <-.
    cbn [stamped with_acceptance paths accepters status createdAt type acceptedAt].
    destruct (paths request !! "name"), (paths request !! "phone"),
      (paths request !! "location"), (paths request !! "bloodType"),
      (paths request !! "urgencyLevel"); split; reflexivity.
  - unfold Accepters.get_accepters. rewrite Hsaved. unfold saved.
    cbn [stamped with_acceptance user].
    rewrite (bool_decide_eq_true_2 (user request = user request)) by done.
    cbn [negb]. unfold Listing.populated_accepters.
    cbn [stamped with_acceptance accepters]. rewrite Hnone.
    cbn [app map Volunteer.acceptance a_user]. unfold populated.
    by rewrite Hprofile.
Qed.

Lemma match_is_listed_witness :
  ∃ request profile,
    Scenario.after_A !! "r1" = Some request
    ∧ Scenario.users !! "u2" = Some profile
    ∧ Accepters.get_accepters Scenario.users Scenario.after_B "r1"
        (user request)
      = json (JObj
          [("success", JBool true);
           ("accepters",
            JArr [JObj [("user",
                         JObj [("_id", JStr "u2");
                               ("name", JStr (name profile));
                               ("phone", JStr (phone profile));
                               ("email", JStr (email profile))]);
                        ("acceptedAt", JDate (Scenario.later 0%nat));
                        ("status", JStr "accepted")]])]).
Proof.
  destruct (match_is_listed Scenario.users Scenario.after_A Scenario.after_B
              "r1" "u2" Scenario.later
              (Volunteer.post_volunteer Scenario.users Scenario.after_A
                 "r1" "u2" Scenario.later).1 eq_refl
              ltac:(vm_compute; reflexivity))
    as (request & profile & H1 & H2 & _ & _ & H3).
  by exists request, profile.
Defined.

(** ** The order of the listing *)

Lemma before_total s : Total (Store.before s).
Proof. intros a b. destruct s; unfold Store.before; lia. Qed.

Lemma before_transitive s : Transitive (Store.before s).
Proof. intros a b c. destruct s; unfold Store.before; lia. Qed.

(** What [find] returns is in the order asked for. *)
Lemma find_sorted matches s skip limit (requests : Requests) found :
  Store.find matches s skip limit requests = Some found →
  StronglySorted (Store.before s) found.
Proof.
  unfold Store.find. destruct (skip <? 0); [done|]. intros [= <-].
  pose proof (before_total s). pose proof (before_transitive s).
  pose proof (StronglySorted_merge_sort (Store.before s)
                (List.filter matches (map_to_list requests))) as Hsorted.
  unfold Store.window.
  set (sorted := merge_sort (Store.before s) _) in *.
  assert (StronglySorted (Store.before s) (drop (Z.to_nat skip) sorted))
    as Hrest.
  { rewrite <- (take_drop (Z.to_nat skip) sorted) in Hsorted.
    by apply StronglySorted_app_1_r in Hsorted. }
  destruct (limit =? 0); [done|].
  rewrite <- (take_drop (Z.to_nat (Z.abs limit)) (drop _ sorted)) in Hrest.
  by apply StronglySorted_app_1_l in Hrest.
Qed.

(** A mapped list is ordered as the list it was made from. *)
Lemma StronglySorted_mapM {A B} (R : relation A) (R' : relation B)
    (f : A → option B) l k :
  (∀ x x' y y', R x x' → f x = Some y → f x' = Some y' → R' y y') →
  mapM f l = Some k → StronglySorted R l → StronglySorted R' k.
Proof.
  intros Hf HF%mapM_Some_1. induction HF as [|x y l k Hxy HF IH].
  - constructor.
  - intros [Hhead Htail]%StronglySorted_cons. constructor; [by apply IH|].
    clear IH Htail. induction HF as [|x' y' l k Hxy' HF IH]; [constructor|].
    apply Forall_cons in Hhead as [Hx Hhead]. constructor; eauto.
Qed.

Lemma filtered_own users userId doc item :
  Listing.filtered users userId doc = Some item → user doc.2 = userId →
  item = document doc.1 doc.2 (JStr (user doc.2))
           (Listing.populated_accepters users doc.2).
Proof.
  unfold Listing.filtered. intros Hitem Howner.
  rewrite (bool_decide_eq_true_2 _ Howner) in Hitem.
  destruct (some_accepter users userId (accepters doc.2)); [|done].
  simpl in Hitem. by injection Hitem as <-.
Qed.

(** X19: the listing is in the order asked for: by creation time, oldest
    first, for [sortBy=oldest]; by time of last update, latest first, for
    [sortBy=updated]; and by creation time, newest first, for any other
    value or none. *)
Theorem listing_order
    (users : Users) (requests : Requests) (userId : Id)
    (q : Listing.Query) :
  let response := Listing.get_requests users requests userId q in
  match Listing.sortCriteria q with
  | Store.createdAt_asc =>
      Listing.q_sortBy q = Some "oldest"
      ∧ StronglySorted (dates_ascend "createdAt") (listed response)
  | Store.updatedAt_desc =>
      Listing.q_sortBy q = Some "updated"
      ∧ StronglySorted (dates_descend "updatedAt") (listed response)
  | Store.createdAt_desc =>
      Listing.q_sortBy q ≠ Some "oldest"
      ∧ Listing.q_sortBy q ≠ Some "updated"
      ∧ StronglySorted (dates_descend "createdAt") (listed response)
  | Store.acceptedAt_desc => False
  end.
Proof.
  cbn zeta.
  assert (∀ R : relation Json,
            (∀ d d' y y',
               Store.before (Listing.sortCriteria q) d d' →
               user d.2 = userId → user d'.2 = userId →
               y = document d.1 d.2 (JStr (user d.2))
                     (Listing.populated_accepters users d.2) →
               y' = document d'.1 d'.2 (JStr (user d'.2))
                      (Listing.populated_accepters users d'.2) →
               R y y') →
            StronglySorted R
              (listed (Listing.get_requests users requests userId q)))
    as Hsorted.
  { intros R HR. unfold Listing.get_requests.
    destruct (Store.find _ _ _ _ _) as [found|] eqn:Hfind; [|constructor].
    destruct (mapM _ found) as [items|] eqn:Hitems; [|constructor].
    unfold listed. cbn.
    pose proof (find_sorted _ _ _ _ _ _ Hfind) as Hfound.
    assert (Forall (fun d => user d.2 = userId) found) as Hown.
    { apply Forall_forall. intros d Hd.
      destruct (find_elem_of _ _ _ _ _ _ _ Hfind Hd) as [_ Hquery].
      unfold Listing.query in Hquery.
      apply andb_prop in Hquery as [Hquery _].
      by apply andb_prop in Hquery as [?%bool_decide_eq_true _]. }
    clear Hfind. apply mapM_Some_1 in Hitems.
    induction Hitems as [|d y found items Hy Hitems IH]; [constructor|].
    apply StronglySorted_cons in Hfound as [Hhead Htail].
    apply Forall_cons in Hown as [Hd Hown].
    constructor; [by apply IH|].
    clear IH Htail. induction Hitems as [|d' y' found items Hy' _ IH];
      [constructor|].
    apply Forall_cons in Hhead as [Hdd' Hhead].
    apply Forall_cons in Hown as [Hd' Hown].
    constructor; [|by apply IH].
    eapply HR; eauto using filtered_own. }
  unfold Listing.sortCriteria in *.
  destruct (Listing.q_sortBy q) as [s|] eqn:Hs.
  - destruct (String.eqb_spec s "oldest") as [->|Hold].
    + split; [done|]. apply Hsorted. intros d d' y y' Hb _ _ -> ->.
      exists (createdAt d.2), (createdAt d'.2). repeat split; done.
    + destruct (String.eqb_spec s "updated") as [->|Hupd].
      * split; [done|]. apply Hsorted. intros d d' y y' Hb _ _ -> ->.
        exists (updatedAt d.2), (updatedAt d'.2). repeat split; done.
      * assert (match s with
                | "oldest" => Store.createdAt_asc
                | "updated" => Store.updatedAt_desc
                | _ => Store.createdAt_desc
                end = Store.createdAt_desc) as Hdefault.
        { clear -Hold Hupd.
          repeat (match goal with
                  | |- context [match ?s with EmptyString => _ | String _ _ => _ end] =>
                      destruct s as [|[[] [] [] [] [] [] [] []] ?]; try done
                  end). }
        rewrite Hdefault in *.
        split; [congruence|]. split; [congruence|].
        apply Hsorted. intros d d' y y' Hb _ _ -> ->.
        exists (createdAt d.2), (createdAt d'.2). repeat split; done.
  - split; [done|]. split; [done|].
    apply Hsorted. intros d d' y y' Hb _ _ -> ->.
    exists (createdAt d.2), (createdAt d'.2). repeat split; done.
Qed.

(** ** The two revisions of the listing *)

Lemma status_name_no_comma s : no_comma (status_name s) = true.
Proof. by destruct s. Qed.

Lemma query_plain_status userId q doc :
  match Listing.q_status q with
  | Some s => no_comma s = true ∧ trim s = s
  | None => True
  end →
  Listing.query userId q doc = ListingV1.query userId q doc.
Proof.
  unfold Listing.query, ListingV1.query. intros Hplain. f_equal.
  destruct (Listing.q_status q) as [s|]; [|done].
  destruct Hplain as [Hcomma Htrim].
  destruct (Listing.given (Some s)); [|done].
  rewrite split_commas_whole by done. cbn [map existsb]. rewrite Htrim.
  rewrite orb_false_r.
  destruct (String.eqb_spec (status_name (status doc.2)) s) as [<-|Hne].
  - by rewrite bool_decide_eq_true_2.
  - rewrite bool_decide_eq_false_2; [done|]. congruence.
Qed.

(** X20: the later revision of the listing agrees with the earlier one
    on every query whose status is absent or a single value without
    commas and surrounding white space: on each request the two queries
    decide alike, and when the later revision answers 200 both return the
    same requests in the same order. For a status value with a comma the
    earlier revision selects nothing. *)
Theorem revisions_agree
    (users : Users) (requests : Requests) (userId : Id)
    (q : Listing.Query) :
  (match Listing.q_status q with
   | Some s => no_comma s = true ∧ trim s = s
   | None => True
   end →
   (∀ doc, Listing.query userId q doc = ListingV1.query userId q doc)
   ∧ (code (Listing.get_requests users requests userId q) = 200%nat →
      map (get "_id") (listed (Listing.get_requests users requests userId q))
      = map (get "_id") (listed (ListingV1.get_requests requests userId q))))
  ∧ (∀ s doc, Listing.q_status q = Some s → no_comma s = false →
              ListingV1.query userId q doc = false).
Proof.
  split.
  - intros Hplain.
    assert (∀ doc, Listing.query userId q doc = ListingV1.query userId q doc)
      as Hsame by (intros doc; by apply query_plain_status).
    split; [done|].
    unfold Listing.get_requests, ListingV1.get_requests, Store.find.
    rewrite (filter_ext _ _ Hsame).
    destruct (_ <? 0); [discriminate|].
    set (found := Store.window _ _ _).
    assert (Forall (fun d => user d.2 = userId) found) as Hown.
    { apply Forall_forall. intros d Hd%window_elem_of.
      rewrite merge_sort_Permutation in Hd.
      apply list_elem_of_In, filter_In in Hd as [_ Hquery].
      unfold ListingV1.query in Hquery.
      apply andb_prop in Hquery as [Hquery _].
      by apply andb_prop in Hquery as [?%bool_decide_eq_true _]. }
    destruct (mapM _ found) as [items|] eqn:Hitems; [|discriminate].
    intros _. unfold listed. cbn. apply mapM_Some_1 in Hitems.
    clearbody found. induction Hitems as [|d y found items Hy _ IH]; [done|].
    apply Forall_cons in Hown as [Hd Hown]. cbn [map]. rewrite (IH Hown).
    f_equal. by rewrite (filtered_own _ _ _ _ Hy Hd).
  - intros s doc Hs Hcomma. unfold ListingV1.query. rewrite Hs.
    assert (s ≠ "") as Hgiven by (intros ->; done).
    cbn [Listing.given]. destruct (String.eqb_spec s ""); [done|]. cbn [negb].
    rewrite (bool_decide_eq_false_2 (Some s = _)); [apply andb_false_r|].
    intros [= ->]. by rewrite status_name_no_comma in Hcomma.
Qed.

Lemma revisions_agree_witness :
  ListingV1.query "u1"
    {| Listing.q_type := None; Listing.q_status := Some "pending,accepted";
       Listing.q_sortBy := None; Listing.q_page := 1; Listing.q_limit := 10 |}
    ("r1", Scenario.R1)
  = false.
Proof.
  apply (proj2 (revisions_agree Scenario.users Scenario.after_A "u1"
                  {| Listing.q_type := None;
                     Listing.q_status := Some "pending,accepted";
                     Listing.q_sortBy := None;
                     Listing.q_page := 1; Listing.q_limit := 10 |})
               "pending,accepted" ("r1", Scenario.R1));
    reflexivity.
Defined.

(** The agreement does not reach a status with white space around it,
    of one byte or more. Sent as "accepted" followed by the no-break
    space U+00A0, the status is trimmed by the later revision, which
    selects the accepted request R1, and taken as it is by the earlier
    one, which selects nothing. The line separator U+2028 and the byte
    order mark U+FEFF are trimmed alike. *)
Example no_break_space_trimmed :
  let byte := Ascii.ascii_of_nat in
  let nbsp := String (byte 194%nat) (String (byte 160%nat) "") in
  let line :=
    String (byte 226%nat) (String (byte 128%nat) (String (byte 168%nat) "")) in
  let mark :=
    String (byte 239%nat) (String (byte 187%nat) (String (byte 191%nat) "")) in
  let q :=
    {| Listing.q_type := None; Listing.q_status := Some ("accepted" +:+ nbsp);
       Listing.q_sortBy := None; Listing.q_page := 1; Listing.q_limit := 10 |} in
  trim ("accepted" +:+ nbsp) = "accepted"
  ∧ trim (line +:+ " accepted" +:+ mark +:+ nbsp) = "accepted"
  ∧ trim ("in" +:+ nbsp +:+ "progress") = "in" +:+ nbsp +:+ "progress"
  ∧ Listing.query "u1" q ("r1", Scenario.R1_accepted) = true
  ∧ ListingV1.query "u1" q ("r1", Scenario.R1_accepted) = false.
Proof. vm_compute. repeat split; reflexivity. Qed.

(** ** The page of the caller's requests *)

(** X21: the page of the caller's requests never holds more than ten
    requests, whatever the filters and however many requests the caller
    has: it sends no page and no page size, and the route's defaults
    apply. Every request it holds is one of the caller's own. *)
Theorem page_holds_ten
    (users : Users) (requests : Requests) (userId : Id)
    (f : Client.Filters) :
  (length (Client.fetchRequests users requests userId f) ≤ 10)%nat
  ∧ ∀ item, item ∈ Client.fetchRequests users requests userId f →
            ∃ id request, requests !! id = Some request
                          ∧ user request = userId
                          ∧ get "_id" item = Some (JStr id).
Proof.
  unfold Client.fetchRequests. cbn zeta.
  destruct (Client.ok _); [|split; [cbn; lia|by intros ? ?%elem_of_nil]].
  split.
  - unfold Listing.get_requests.
    destruct (Store.find _ _ _ _ _) as [found|] eqn:Hfind; [|cbn; lia].
    destruct (mapM _ found) as [items|] eqn:Hitems; [|cbn; lia].
    unfold listed. cbn.
    apply mapM_Some_1, Forall2_length in Hitems.
    destruct (find_length _ _ _ _ _ _ Hfind) as [_ Hlimit].
    cbn in Hlimit. lia.
  - intros item Hin.
    destruct (listing_item_owned _ _ _ _ _ Hin)
      as (id & request & Hfound & Howner & ->).
    by exists id, request.
Qed.

Lemma page_holds_ten_witness :
  ∃ id request,
    Scenario.after_B !! id = Some request ∧ user request = "u1"
    ∧ get "_id"
        (hd JNull
           (Client.fetchRequests Scenario.users Scenario.after_B "u1"
              {| Client.f_type := ""; Client.f_status := "";
                 Client.f_sortBy := "newest" |}))
      = Some (JStr id).
Proof.
  apply (page_holds_ten Scenario.users Scenario.after_B "u1"
           {| Client.f_type := ""; Client.f_status := "";
              Client.f_sortBy := "newest" |}).
  vm_compute. left.
Defined.

(** ** A caller without a profile *)

(** X22: what a caller gets who is authenticated but has no profile.
    Creating without a phone in the payload is a 500 and stores nothing;
    with a phone it succeeds and the new request's [user] is sent as
    [null]. The single read of any existing request is a 500. For a blood
    request whose owner has a profile, volunteering is answered
    "Volunteer not found", as the only route that looks for the profile
    before using it, and nothing is stored. *)
Theorem caller_without_profile
    (users : Users) (requests : Requests) (userId : Id) :
  users !! userId = None →
  (∀ sent newId clock,
     truthy (sent !! "phone") = false →
     Create.post_request users requests userId [] sent newId clock
     = (Create.server_error, requests))
  ∧ (∀ sent newId clock t,
       truthy (sent !! "phone") = true → Create.body_type sent = Some t →
       code (Create.post_request users requests userId [] sent newId clock).1
         = 201%nat
       ∧ path ["request"; "user"]
           (body (Create.post_request users requests userId [] sent newId
                    clock).1)
         = Some JNull)
  ∧ (∀ id, is_Some (requests !! id) →
           Get.get_request users requests id userId = Get.server_error)
  ∧ (∀ id request clock,
       requests !! id = Some request → type request = blood →
       is_Some (users !! user request) →
       Volunteer.post_volunteer users requests id userId clock
       = (Volunteer.volunteer_not_found, requests)).
Proof.
  intros Hnone. split; [|split; [|split]].
  - intros sent newId clock Hphone.
    unfold Create.post_request, Create.phoneNumber.
    by rewrite Hphone, Hnone.
  - intros sent newId clock t Hphone Htype.
    unfold Create.post_request, Create.phoneNumber.
    rewrite Hphone, Htype.
    destruct (sent !! "phone") as [v|] eqn:Hv; [|done].
    rewrite Hphone. cbn [negb fst code status_json body path get assoc].
    unfold document_with_user, populated. cbn [user Create.new_Request].
    rewrite Hnone. by split.
  - intros id [request Hfound]. unfold Get.get_request, Get.denied.
    by rewrite Hfound, Hnone.
  - intros id request clock Hfound Hblood [owner Howner].
    unfold Volunteer.post_volunteer, Volunteer.decide_volunteer.
    rewrite Hfound, (bool_decide_eq_true_2 _ Hblood), Howner, Hnone.
    cbn [negb]. rewrite bool_decide_eq_false_2; [done|].
    intros <-. congruence.
Qed.

Lemma caller_without_profile_witness :
  Get.get_request Scenario.users Scenario.after_A "r1" "u9" = Get.server_error.
Proof.
  refine (proj1 (proj2 (proj2 (caller_without_profile Scenario.users
                                 Scenario.after_A "u9" _))) "r1" _).
  - reflexivity.
  - vm_compute. eauto.
Defined.

(** ** The shape of every stored request *)

(** X23: when the handlers run one after another, none starting before
    the one before it has answered, then whatever operations have run
    since the collection was empty, every stored request is either
    pending and without accepters, or an accepted blood request with
    exactly one acceptance record, whose user is not the owner and whose
    status is "accepted". Volunteer runs that overlap are not covered:
    they can store a second record. *)
Theorem reachable_shape
    (users : Users) (ops : list Operation) (id : Id) (r : Request) :
  perform_all users ops ∅ !! id = Some r →
  (status r = pending ∧ accepters r = [])
  ∨ (type r = blood ∧ status r = accepted
     ∧ ∃ a, accepters r = [a] ∧ a_user a ≠ user r
            ∧ a_status a = "accepted").
Proof.
  unfold perform_all. revert id r.
  induction ops as [|op ops IH] using rev_ind; intros id r.
  - cbn. by rewrite lookup_empty.
  - rewrite foldl_app. cbn [foldl]. intros Hr.
    destruct (perform_origin _ _ _ _ _ Hr)
      as [r0 H0 Ht Hu Hs Ha | Hs Ha | userId clock r0 _ H0 Hblood Hself Ha ->].
    + rewrite Ht, Hu, Hs, Ha. by apply (IH id).
    + by left.
    + right. cbn [stamped with_acceptance type status accepters user].
      split; [done|]. split; [done|].
      exists (Volunteer.acceptance userId clock). rewrite Ha.
      repeat split. cbn. congruence.
Qed.

Lemma reachable_shape_witness :
  (status Scenario.R1_accepted = pending ∧ accepters Scenario.R1_accepted = [])
  ∨ (type Scenario.R1_accepted = blood ∧ status Scenario.R1_accepted = accepted
     ∧ ∃ a, accepters Scenario.R1_accepted = [a]
            ∧ a_user a ≠ user Scenario.R1_accepted
            ∧ a_status a = "accepted").
Proof.
  apply (reachable_shape Scenario.users
           [create "u1" [] Scenario.body_R1 "r1" Scenario.clock;
            volunteer "r1" "u2" Scenario.later] "r1").
  vm_compute. reflexivity.
Defined.
